(** * data_cleaning.py: a shallow embedding of the cleaning pipeline

    The program is a chain of eight pandas stages over one frame.  The
    embedding keeps the stage functions of [data_cleaning.py] under their own
    names and gives the pandas operations they call a small executable
    meaning:

    - a Python [str] is a Rocq [string]; case mapping, whitespace and the
      regular-expression classes are the ASCII ones, characters above 127
      stand for themselves;
    - a column is a [Series] of one of the dtypes the stages meet: object
      (text, numbers, NaN), float64, int64, bool and the nullable Int64 the
      numeric cleaner produces;
    - float64 arithmetic, [str] of a float and the number parser of
      [pd.to_numeric] are an interface ([Float64]);
    - the integers that the numeric cleaner reads from runs of digits go
      through float64 as soon as an element of the column is missing, as in
      pandas; runs of more than 16 digits, which pandas reads with a parser
      that keeps 17 digits and whose value an int64 may not hold, are outside
      the embedding;
    - [print] appends a line to a log that the functions return next to the
      frame. *)

From Stdlib Require Import List String Ascii ZArith Bool Arith Lia.
From Stdlib Require Import Permutation Sorted.
From Stdlib Require Import Numbers.DecimalString Numbers.DecimalNat Numbers.DecimalZ.
Import ListNotations.
Open Scope string_scope.

(** ** Python strings *)

Module Str.

Definition code (c : ascii) : nat := nat_of_ascii c.

Definition in_range (lo hi : nat) (c : ascii) : bool :=
  (lo <=? code c)%nat && (code c <=? hi)%nat.

Definition is_upper (c : ascii) : bool := in_range 65 90 c.
Definition is_lower (c : ascii) : bool := in_range 97 122 c.
Definition is_digit (c : ascii) : bool := in_range 48 57 c.

(** [\w] of the [re] module. *)
Definition is_word (c : ascii) : bool :=
  is_upper c || is_lower c || is_digit c || Ascii.eqb c "_".

(** What [str.strip()] removes: tab to carriage return, the four separators
    and the space. *)
Definition is_space (c : ascii) : bool := in_range 9 13 c || in_range 28 32 c.

Definition to_lower (c : ascii) : ascii :=
  if is_upper c then ascii_of_nat (code c + 32) else c.

Definition to_upper (c : ascii) : ascii :=
  if is_lower c then ascii_of_nat (code c - 32) else c.

Fixpoint map (f : ascii -> ascii) (s : string) : string :=
  match s with
  | EmptyString => EmptyString
  | String c s' => String (f c) (map f s')
  end.

Fixpoint forallb (p : ascii -> bool) (s : string) : bool :=
  match s with
  | EmptyString => true
  | String c s' => p c && forallb p s'
  end.

(** [s.lower()], [s.upper()] *)
Definition lower : string -> string := map to_lower.
Definition upper : string -> string := map to_upper.

(** [s.replace(a, b)] for one-character [a] and [b]. *)
Definition replace_char (a b : ascii) : string -> string :=
  map (fun c => if Ascii.eqb c a then b else c).

Fixpoint lstrip (p : ascii -> bool) (s : string) : string :=
  match s with
  | EmptyString => EmptyString
  | String c s' => if p c then lstrip p s' else s
  end.

Fixpoint rstrip (p : ascii -> bool) (s : string) : string :=
  match s with
  | EmptyString => EmptyString
  | String c s' =>
      match rstrip p s' with
      | EmptyString => if p c then EmptyString else String c EmptyString
      | r => String c r
      end
  end.

(** [s.strip()] *)
Definition strip (s : string) : string := rstrip is_space (lstrip is_space s).

(** [s.rstrip('%')] *)
Definition rstrip_pct : string -> string := rstrip (Ascii.eqb "%").

(** [s.startswith(p)] *)
Definition startswith (p s : string) : bool := prefix p s.

(** [re.search('^[..]', s)]: the first character lies in the class. *)
Definition starts_in (cls : list ascii) (s : string) : bool :=
  match s with
  | EmptyString => false
  | String c _ => existsb (Ascii.eqb c) cls
  end.

(** [drop_prefix w s] is what follows [w] when [s] starts with it. *)
Fixpoint drop_prefix (w s : string) : option string :=
  match w, s with
  | EmptyString, _ => Some s
  | String a w', String b s' => if Ascii.eqb a b then drop_prefix w' s' else None
  | String _ _, EmptyString => None
  end.

(** A [\b] in front of what is left of the subject, after a word character. *)
Definition boundary_here (rest : string) : bool :=
  match rest with
  | EmptyString => true
  | String c _ => negb (is_word c)
  end.

(** [re.search(r'\bw\b', s)] for a word [w] made of word characters;
    [prev] tells whether the character before [s] is a word character. *)
Fixpoint search_word (w : string) (prev : bool) (s : string) : bool :=
  match s with
  | EmptyString => false
  | String c s' =>
      (negb prev
       && match drop_prefix w s with
          | Some rest => boundary_here rest
          | None => false
          end)
      || search_word w (is_word c) s'
  end.

(** The longest run of digits at the head of [s], and the rest. *)
Fixpoint span_digits (s : string) : string * string :=
  match s with
  | EmptyString => (EmptyString, EmptyString)
  | String c s' =>
      if is_digit c
      then let (ds, rest) := span_digits s' in (String c ds, rest)
      else (EmptyString, s)
  end.

(** One attempt of [/(\d+)/] at the head of [s].  After the slash the
    greedy [\d+] takes the whole run of digits; giving digits back can never
    make the closing slash match, so the attempt succeeds exactly when the
    run is not empty and a slash follows it. *)
Definition match_here (s : string) : option string :=
  match s with
  | EmptyString => None
  | String c s' =>
      if Ascii.eqb c "/" then
        match span_digits s' with
        | (String d ds, String e _) =>
            if Ascii.eqb e "/" then Some (String d ds) else None
        | _ => None
        end
      else None
  end.

(** [re.search(r'/(\d+)/', s)]: group 1 of the leftmost match, the attempts
    being made from left to right. *)
Fixpoint extract_slash_digits (s : string) : option string :=
  match s with
  | EmptyString => None
  | String _ s' =>
      match match_here s with
      | Some ds => Some ds
      | None => extract_slash_digits s'
      end
  end.

(** The value of a run of decimal digits, [int(ds)]. *)
Fixpoint digits_value (acc : Z) (ds : string) : Z :=
  match ds with
  | EmptyString => acc
  | String c ds' => digits_value (10 * acc + Z.of_nat (code c - 48)) ds'
  end.

(** [str(n)] for an integer. *)
Definition of_Z (z : Z) : string := NilZero.string_of_int (Z.to_int z).
Definition of_nat (n : nat) : string := NilZero.string_of_uint (Nat.to_uint n).

End Str.

(** ** float64

    The values of a float64 other than NaN and what the pipeline does with
    them; NaN is [None] in a column.  Nothing is assumed of these
    operations: whether a float is read back from its own string form is a
    hypothesis where a statement depends on it. *)

Class Float64 := {
  float : Type;
  float_eq_dec : forall x y : float, {x = y} + {x <> y};
  (** [x <= y] *)
  float_leb : float -> float -> bool;
  (** [(x + y) / 2], the mean of the two middle values of a median *)
  float_mean2 : float -> float -> float;
  (** [str(x)] *)
  float_str : float -> string;
  (** what [pd.to_numeric(errors='coerce')] makes of one string; [None] is NaN *)
  parse_float : string -> option float
}.

Section Frames.

Context {F : Float64}.

(** ** Series and frames *)

(** An element of an object column. *)
Inductive Scalar : Type :=
| SStr (s : string)
| SNum (x : float)
| SNaN.

Inductive Series : Type :=
| ObjectS (l : list Scalar)
| Float64S (l : list (option float))
| Int64S (l : list Z)
| BoolS (l : list bool)
| NullableIntS (l : list (option Z)).

(** [index] holds the row labels, [columns] the labelled columns in order. *)
Record DataFrame : Type := mkDF {
  index : list Z;
  columns : list (string * Series)
}.

(** One cell, whatever the dtype of its column. *)
Inductive Cell : Type :=
| CStr (s : string)
| CNum (x : float)
| CInt (z : Z)
| CBool (b : bool)
| CNaN
| CNA.

Definition scalar_cell (x : Scalar) : Cell :=
  match x with
  | SStr s => CStr s
  | SNum x => CNum x
  | SNaN => CNaN
  end.

Definition cells (s : Series) : list Cell :=
  match s with
  | ObjectS l => List.map scalar_cell l
  | Float64S l => List.map (fun o => match o with Some x => CNum x | None => CNaN end) l
  | Int64S l => List.map CInt l
  | BoolS l => List.map CBool l
  | NullableIntS l => List.map (fun o => match o with Some z => CInt z | None => CNA end) l
  end.

(** [len(s)] *)
Definition len (s : Series) : nat := List.length (cells s).

(** [str(x)] of a cell, as [astype(str)] applies it. *)
Definition cell_str (c : Cell) : string :=
  match c with
  | CStr s => s
  | CNum x => float_str x
  | CInt z => Str.of_Z z
  | CBool true => "True"
  | CBool false => "False"
  | CNaN => "nan"
  | CNA => "<NA>"
  end.

(** [pd.isna] of a cell. *)
Definition cell_isna (c : Cell) : bool :=
  match c with
  | CNaN | CNA => true
  | _ => false
  end.

Definition cell_eq_dec (a b : Cell) : {a = b} + {a <> b}.
Proof.
  decide equality;
    [apply string_dec | apply float_eq_dec | apply Z.eq_dec | apply bool_dec].
Defined.

Definition row_eq_dec : forall a b : list Cell, {a = b} + {a <> b} :=
  list_eq_dec cell_eq_dec.

(** [s.astype(str)]: an object column of strings; no element is missing any
    more. *)
Definition astype_str (s : Series) : Series :=
  ObjectS (List.map (fun c => SStr (cell_str c)) (cells s)).

(** [s.isnull()] *)
Definition isnull (s : Series) : Series := BoolS (List.map cell_isna (cells s)).

Definition has_nan {A} (l : list (option A)) : bool :=
  existsb (fun o => match o with None => true | Some _ => false end) l.

(** [s.fillna(v)] for a string [v].  An object column takes the string in
    place of each NaN.  A float64 column with a NaN in it is upcast to object
    to take the string; int64 and bool columns hold no missing value.  (A
    nullable Int64 column does not reach this function, see [frame_ok].) *)
Definition fillna_str (v : string) (s : Series) : Series :=
  match s with
  | ObjectS l =>
      ObjectS (List.map (fun x => match x with SNaN => SStr v | _ => x end) l)
  | Float64S l =>
      if has_nan l
      then ObjectS (List.map (fun o => match o with Some x => SNum x | None => SStr v end) l)
      else s
  | _ => s
  end.

(** [s.apply(f)] on an object column whose elements are strings.  The
    stages call this and the string methods below on columns that
    [astype(str)] has just made, so that no other dtype and no missing
    element is met. *)
Definition apply_str (f : string -> string) (s : Series) : Series :=
  match s with
  | ObjectS l =>
      ObjectS (List.map (fun x => match x with SStr t => SStr (f t) | _ => x end) l)
  | _ => s
  end.

(** [s.str.upper()], [s.str.rstrip('%')]: the string method on each string,
    NaN stays. *)
Definition str_map (f : string -> string) (s : Series) : Series := apply_str f s.

(** [s.replace(mapping)]: a string equal to a key becomes its value. *)
Fixpoint assoc (k : string) (m : list (string * string)) : option string :=
  match m with
  | [] => None
  | (k', v) :: m' => if String.eqb k k' then Some v else assoc k m'
  end.

Definition replace_map (m : list (string * string)) (s : Series) : Series :=
  apply_str (fun t => match assoc t m with Some v => v | None => t end) s.

(** [s.str.contains(re, na=False)] as a mask, [re] given as its matcher. *)
Definition str_contains (re : string -> bool) (s : Series) : list bool :=
  match s with
  | ObjectS l => List.map (fun x => match x with SStr t => re t | _ => false end) l
  | _ => List.map (fun _ => false) (cells s)
  end.

(** [df.loc[mask, col] = v] on the column, for a string [v]. *)
Fixpoint assign_where (mask : list bool) (v : Scalar) (l : list Scalar) : list Scalar :=
  match mask, l with
  | m :: mask', x :: l' => (if m then v else x) :: assign_where mask' v l'
  | _, _ => l
  end.

Definition loc_assign (mask : list bool) (v : string) (s : Series) : Series :=
  match s with
  | ObjectS l => ObjectS (assign_where mask (SStr v) l)
  | _ => s
  end.

(** [s.str.extract(r'/(\d+)/')]: the captured digits, NaN where the pattern
    is not found. *)
Definition str_extract (s : Series) : Series :=
  match s with
  | ObjectS l =>
      ObjectS (List.map (fun x => match x with
                                  | SStr t => match Str.extract_slash_digits t with
                                              | Some ds => SStr ds
                                              | None => SNaN
                                              end
                                  | _ => SNaN
                                  end) l)
  | _ => s
  end.

(** [pd.to_numeric(s, errors='coerce').astype('float64')] *)
Definition to_numeric_float64 (s : Series) : Series :=
  match s with
  | ObjectS l =>
      Float64S (List.map (fun x => match x with
                                   | SStr t => parse_float t
                                   | SNum x => Some x
                                   | SNaN => None
                                   end) l)
  | _ => s
  end.

(** The float64 nearest to a natural number, ties going to the even
    significand.  Every natural number below 2^53 is a float64; from there
    on two neighbouring floats are [2 ^ (log2 z - 52)] apart. *)
Definition float64_nearest (z : Z) : Z :=
  if (z <? 2 ^ 53)%Z then z
  else
    let gap := (2 ^ (Z.log2 z - 52))%Z in
    let q := (z / gap)%Z in
    let r := (z mod gap)%Z in
    if (2 * r <? gap)%Z then (q * gap)%Z
    else if (gap <? 2 * r)%Z then ((q + 1) * gap)%Z
    else if Z.even q then (q * gap)%Z else ((q + 1) * gap)%Z.

(** What [pd.to_numeric(errors='coerce')] reads in one element: the integer
    that a run of digits spells, NaN for anything else. *)
Definition read_digits (x : Scalar) : option Z :=
  match x with
  | SStr (String d ds) =>
      if Str.forallb Str.is_digit (String d ds)
      then Some (Str.digits_value 0 (String d ds))
      else None
  | _ => None
  end.

(** The result of [pd.to_numeric] is an int64 column when no element is
    missing and a float64 column as soon as one is: every integer is then
    replaced by the float64 nearest to it. *)
Definition through_float64 (l : list (option Z)) : list (option Z) :=
  if has_nan l then List.map (option_map float64_nearest) l else l.

(** [pd.to_numeric(s, errors='coerce').astype('Int64')] on the column that
    [str_extract] leaves: runs of digits and NaN.  [astype('Int64')] takes
    over the integers of the int64 column, or the integers that the floats
    of the float64 column are.  This is what pandas returns when no run has
    more than 16 digits.  With a longer run the column is outside the
    embedding: the parser of pandas keeps 17 digits of it, and the cast to
    Int64 raises TypeError for a value from 2^63 on. *)
Definition to_numeric_Int64 (s : Series) : Series :=
  match s with
  | ObjectS l => NullableIntS (through_float64 (List.map read_digits l))
  | _ => s
  end.

(** [pd.api.types.is_numeric_dtype(s)] *)
Definition is_numeric_dtype (s : Series) : bool :=
  match s with
  | ObjectS _ => false
  | _ => true
  end.

(** *** The median *)

Fixpoint insert_sorted (x : float) (l : list float) : list float :=
  match l with
  | [] => [x]
  | y :: l' => if float_leb x y then x :: l else y :: insert_sorted x l'
  end.

Definition sort_values (l : list float) : list float :=
  fold_right insert_sorted [] l.

Fixpoint dropna {A} (l : list (option A)) : list A :=
  match l with
  | [] => []
  | Some x :: l' => x :: dropna l'
  | None :: l' => dropna l'
  end.

(** The median of sorted values: the middle one, or the mean of the two
    middle ones; NaN when there is none. *)
Definition median_sorted (v : list float) : option float :=
  let n := List.length v in
  if Nat.odd n then nth_error v (n / 2)
  else match nth_error v (n / 2 - 1), nth_error v (n / 2) with
       | Some a, Some b => Some (float_mean2 a b)
       | _, _ => None
       end.

(** [s.median()] of a float64 column: NaN is skipped. *)
Definition median (l : list (option float)) : option float :=
  median_sorted (sort_values (dropna l)).

(** [s.fillna(s.median())] on a column of numeric dtype.  int64 and bool hold
    no missing value, so there is nothing to fill whatever the median is. *)
Definition fill_with (m : option float) (l : list (option float))
  : list (option float) :=
  List.map (fun o => match o with Some x => Some x | None => m end) l.

Definition fillna_median (s : Series) : Series :=
  match s with
  | Float64S l => Float64S (fill_with (median l) l)
  | _ => s
  end.

(** *** Columns of a frame *)

Definition labels (df : DataFrame) : list string := List.map fst (columns df).

(** [name in df.columns] *)
Definition has_column (name : string) (df : DataFrame) : bool :=
  existsb (String.eqb name) (labels df).

(** [df[name]] *)
Fixpoint lookup (name : string) (cs : list (string * Series)) : option Series :=
  match cs with
  | [] => None
  | (n, s) :: cs' => if String.eqb name n then Some s else lookup name cs'
  end.

Definition getitem (name : string) (df : DataFrame) : option Series :=
  lookup name (columns df).

(** [df[name] = s]: the column is replaced where it stands, a new label goes
    to the end. *)
Fixpoint store (name : string) (s : Series) (cs : list (string * Series))
  : list (string * Series) :=
  match cs with
  | [] => [(name, s)]
  | (n, s') :: cs' =>
      if String.eqb name n then (n, s) :: cs' else (n, s') :: store name s cs'
  end.

Definition setitem (name : string) (s : Series) (df : DataFrame) : DataFrame :=
  mkDF (index df) (store name s (columns df)).

(** [if name in df.columns: df[name] = f(df[name])] *)
Definition on_column (name : string) (f : Series -> Series) (df : DataFrame)
  : DataFrame :=
  if has_column name df
  then match getitem name df with
       | Some s => setitem name (f s) df
       | None => df
       end
  else df.

(** ** The stages of data_cleaning.py *)

(** [df.columns.str.lower()], then [.str.replace(' ', '_')] *)
Definition normalize_label (n : string) : string :=
  Str.replace_char " " "_" (Str.lower n).

(** [df.rename(columns={'st': 'state', 'income': 'customer_income'})] on one
    label. *)
Definition rename_label (n : string) : string :=
  if String.eqb n "st" then "state"
  else if String.eqb n "income" then "customer_income"
  else n.

Definition clean_column_names (df : DataFrame) : DataFrame :=
  let cols1 := List.map (fun c => (Str.lower (fst c), snd c)) (columns df) in
  let cols2 := List.map (fun c => (Str.replace_char " " "_" (fst c), snd c)) cols1 in
  mkDF (index df) (List.map (fun c => (rename_label (fst c), snd c)) cols2).

(** The lambda of [standardize_gender]. *)
Definition gender_value (x : string) : string :=
  if Str.startswith "F" (Str.upper (Str.strip x)) then "F"
  else if Str.startswith "M" (Str.upper (Str.strip x)) then "M"
  else x.

Definition standardize_gender (df : DataFrame) : DataFrame :=
  on_column "gender"
    (fun gender_series =>
       let gender_series := fillna_str "" (astype_str gender_series) in
       apply_str gender_value gender_series)
    df.

Definition state_mapping : list (string * string) :=
  [ ("AL", "ALABAMA"); ("AK", "ALASKA"); ("AZ", "ARIZONA"); ("AR", "ARKANSAS");
    ("CA", "CALIFORNIA"); ("CALI", "CALIFORNIA");
    ("CO", "COLORADO"); ("CT", "CONNECTICUT"); ("DE", "DELAWARE");
    ("FL", "FLORIDA"); ("GA", "GEORGIA");
    ("HI", "HAWAII"); ("ID", "IDAHO"); ("IL", "ILLINOIS"); ("IN", "INDIANA");
    ("IA", "IOWA");
    ("KS", "KANSAS"); ("KY", "KENTUCKY"); ("LA", "LOUISIANA"); ("ME", "MAINE");
    ("MD", "MARYLAND");
    ("MA", "MASSACHUSETTS"); ("MI", "MICHIGAN"); ("MN", "MINNESOTA");
    ("MS", "MISSISSIPPI"); ("MO", "MISSOURI");
    ("MT", "MONTANA"); ("NE", "NEBRASKA"); ("NV", "NEVADA");
    ("NH", "NEW HAMPSHIRE"); ("NJ", "NEW JERSEY");
    ("NM", "NEW MEXICO"); ("NY", "NEW YORK"); ("NC", "NORTH CAROLINA");
    ("ND", "NORTH DAKOTA"); ("OH", "OHIO");
    ("OK", "OKLAHOMA"); ("OR", "OREGON"); ("PA", "PENNSYLVANIA");
    ("RI", "RHODE ISLAND"); ("SC", "SOUTH CAROLINA");
    ("SD", "SOUTH DAKOTA"); ("TN", "TENNESSEE"); ("TX", "TEXAS"); ("UT", "UTAH");
    ("VT", "VERMONT");
    ("VA", "VIRGINIA"); ("WA", "WASHINGTON"); ("WV", "WEST VIRGINIA");
    ("WI", "WISCONSIN"); ("WY", "WYOMING") ].

Definition standardize_state (df : DataFrame) : DataFrame :=
  on_column "state"
    (fun s => replace_map state_mapping (str_map Str.upper (astype_str s)))
    df.

Definition standardize_education (df : DataFrame) : DataFrame :=
  on_column "education"
    (fun s =>
       let s := astype_str s in
       loc_assign (str_contains (Str.starts_in ["B"; "b"]%char) s) "Bachelor" s)
    df.

Definition standardize_vehicle_class (df : DataFrame) : DataFrame :=
  on_column "vehicle_class"
    (fun s =>
       let s := astype_str s in
       let s := loc_assign (str_contains (Str.starts_in ["L"; "u"]%char) s) "Luxury" s in
       loc_assign (str_contains (Str.search_word "Sports" false) s) "Luxury" s)
    df.

Definition clean_and_convert_numerical (df : DataFrame) : DataFrame :=
  let df :=
    on_column "customer_lifetime_value"
      (fun s => to_numeric_float64 (str_map Str.rstrip_pct (astype_str s))) df in
  on_column "number_of_open_complaints"
    (fun s => to_numeric_Int64 (str_extract (astype_str s))) df.

(** The frame is empty when it has no row or no column. *)
Definition empty (df : DataFrame) : bool :=
  match index df, columns df with
  | [], _ | _, [] => true
  | _, _ => false
  end.

(** Row [i] of the frame, cell by cell. *)
Definition row (df : DataFrame) (i : nat) : list Cell :=
  List.map (fun c => nth i (cells (snd c)) CNaN) (columns df).

Definition rows (df : DataFrame) : list (list Cell) :=
  List.map (row df) (seq 0 (List.length (index df))).

(** [df.duplicated(keep='first')]: a row is marked when an earlier row has
    the same cells. *)
Fixpoint duplicated_from (seen rs : list (list Cell)) : list bool :=
  match rs with
  | [] => []
  | r :: rs' =>
      (if in_dec row_eq_dec r seen then true else false)
        :: duplicated_from (r :: seen) rs'
  end.

Definition duplicated (df : DataFrame) : list bool := duplicated_from [] (rows df).

(** The elements of [l] where the mask is false. *)
Fixpoint drop_marked {A} (mask : list bool) (l : list A) : list A :=
  match mask, l with
  | m :: mask', x :: l' => if m then drop_marked mask' l' else x :: drop_marked mask' l'
  | _, _ => []
  end.

Definition series_drop (mask : list bool) (s : Series) : Series :=
  match s with
  | ObjectS l => ObjectS (drop_marked mask l)
  | Float64S l => Float64S (drop_marked mask l)
  | Int64S l => Int64S (drop_marked mask l)
  | BoolS l => BoolS (drop_marked mask l)
  | NullableIntS l => NullableIntS (drop_marked mask l)
  end.

(** [df.drop_duplicates(keep='first')]; an empty frame is returned as it is. *)
Definition drop_duplicates (df : DataFrame) : DataFrame :=
  if empty df then df
  else
    let mask := duplicated df in
    mkDF (drop_marked mask (index df))
         (List.map (fun c => (fst c, series_drop mask (snd c))) (columns df)).

(** [df.reset_index(drop=True)] *)
Definition reset_index (df : DataFrame) : DataFrame :=
  mkDF (List.map Z.of_nat (seq 0 (List.length (index df)))) (columns df).

(** [len(df)] *)
Definition nrows (df : DataFrame) : nat := List.length (index df).

Definition remove_duplicates (df : DataFrame) : DataFrame * list string :=
  let initial_rows := nrows df in
  let df_cleaned := reset_index (drop_duplicates df) in
  let rows_removed := initial_rows - nrows df_cleaned in
  (df_cleaned, ["Number of duplicate rows removed: " ++ Str.of_nat rows_removed]).

Definition categorical_cols : list string :=
  ["customer"; "state"; "gender"; "education"; "policy_type"; "vehicle_class"].

Definition numerical_cols : list string :=
  ["total_claim_amount"; "monthly_premium_auto"; "customer_income";
   "customer_lifetime_value"].

(** [if 'number_of_open_complaints' in df.columns:
       df['complaints_missing'] = df['number_of_open_complaints'].isnull()] *)
Definition derive_complaints_missing (df : DataFrame) : DataFrame :=
  match getitem "number_of_open_complaints" df with
  | Some s => setitem "complaints_missing" (isnull s) df
  | None => df
  end.

Definition handle_missing_values (df : DataFrame) : DataFrame :=
  let df :=
    fold_left (fun df col => on_column col (fillna_str "Unknown") df)
              categorical_cols df in
  let df :=
    fold_left (fun df col =>
                 on_column col
                   (fun s => if is_numeric_dtype s then fillna_median s else s) df)
              numerical_cols df in
  derive_complaints_missing df.

Definition main_cleaning_pipeline (df : DataFrame) : DataFrame * list string :=
  let log := ["Starting the data cleaning and formatting pipeline..."] in
  let df := clean_column_names df in
  let df := standardize_gender df in
  let df := standardize_state df in
  let df := standardize_education df in
  let df := standardize_vehicle_class df in
  let df := clean_and_convert_numerical df in
  let df := handle_missing_values df in
  let (df, out) := remove_duplicates df in
  (df, (log ++ out ++ ["Data cleaning pipeline completed successfully."])%list).

(** The frame handed to the duplicate remover. *)
Definition before_duplicates (df : DataFrame) : DataFrame :=
  handle_missing_values
    (clean_and_convert_numerical
       (standardize_vehicle_class
          (standardize_education
             (standardize_state
                (standardize_gender (clean_column_names df)))))).

(** ** Frames of the embedding

    The stages are modelled on frames whose labels are pairwise distinct,
    whose columns all have one cell per row label (and that have no row when
    they have no column), and where a nullable Int64 column, if any, is the
    one the numeric cleaner makes. *)

Fixpoint distinct (l : list string) : bool :=
  match l with
  | [] => true
  | x :: l' => negb (existsb (String.eqb x) l') && distinct l'
  end.

Definition aligned (df : DataFrame) : bool :=
  List.forallb (fun c => Nat.eqb (len (snd c)) (nrows df)) (columns df).

Definition is_nullable (s : Series) : bool :=
  match s with
  | NullableIntS _ => true
  | _ => false
  end.

Definition dtype_ok (c : string * Series) : bool :=
  negb (is_nullable (snd c)) || String.eqb (fst c) "number_of_open_complaints".

Definition frame_ok (df : DataFrame) : bool :=
  distinct (labels df)
  && aligned df
  && match columns df with [] => Nat.eqb (nrows df) 0 | _ :: _ => true end
  && List.forallb dtype_ok (columns df).

(** A label as the name normalizer leaves it: no capital, no space. *)
Definition label_clean (n : string) : bool :=
  Str.forallb (fun c => negb (Str.is_upper c) && negb (Ascii.eqb c " ")) n.

(** The positions of the rows that [duplicated] does not mark. *)
Definition kept_rows (df : DataFrame) : list nat :=
  drop_marked (duplicated df) (seq 0 (nrows df)).

(** Every cell of column [name] is missing (or there is no such column). *)
Definition all_missing_at (name : string) (df : DataFrame) : bool :=
  match getitem name df with
  | Some s => List.forallb cell_isna (cells s)
  | None => true
  end.

(** A float64 cell is read back from its own string form: what the numeric
    cleaner makes of [str] of the cell (trailing percent signs off, then the
    number parser) is the cell again. *)
Definition reads_back (c : Cell) : bool :=
  match parse_float (Str.rstrip_pct (cell_str c)), c with
  | Some y, CNum x => if float_eq_dec x y then true else false
  | None, CNaN => true
  | _, _ => false
  end.

(** Every cell of column [name] is read back (or there is no such
    column). *)
Definition all_read_back_at (name : string) (df : DataFrame) : bool :=
  match getitem name df with
  | Some s => List.forallb reads_back (cells s)
  | None => true
  end.

(** The run of digits that the complaints pattern captures in a cell, if
    any, has at most [k] digits. *)
Definition run_within (k : nat) (c : Cell) : bool :=
  match Str.extract_slash_digits (cell_str c) with
  | Some ds => (String.length ds <=? k)%nat
  | None => true
  end.

Definition runs_within (k : nat) (s : Series) : bool :=
  List.forallb (run_within k) (cells s).

(** *** The pipeline column by column

    Each stage before the duplicate remover rewrites columns one at a time,
    by label.  [treatment n] is everything that happens to the column
    labelled [n] up to the derivation of complaints_missing. *)

Definition map_columns (g : string -> Series -> Series) (df : DataFrame)
  : DataFrame :=
  mkDF (index df) (List.map (fun c => (fst c, g (fst c) (snd c))) (columns df)).

Definition at_label (l : string) (f : Series -> Series) (n : string) (s : Series)
  : Series :=
  if String.eqb n l then f s else s.

Definition treatment (n : string) (s : Series) : Series :=
  let s := at_label "gender"
             (fun gender_series =>
                let gender_series := fillna_str "" (astype_str gender_series) in
                apply_str gender_value gender_series) n s in
  let s := at_label "state"
             (fun s => replace_map state_mapping (str_map Str.upper (astype_str s))) n s in
  let s := at_label "education"
             (fun s =>
                let s := astype_str s in
                loc_assign (str_contains (Str.starts_in ["B"; "b"]%char) s) "Bachelor" s)
             n s in
  let s := at_label "vehicle_class"
             (fun s =>
                let s := astype_str s in
                let s := loc_assign (str_contains (Str.starts_in ["L"; "u"]%char) s)
                                    "Luxury" s in
                loc_assign (str_contains (Str.search_word "Sports" false) s) "Luxury" s)
             n s in
  let s := at_label "customer_lifetime_value"
             (fun s => to_numeric_float64 (str_map Str.rstrip_pct (astype_str s))) n s in
  let s := at_label "number_of_open_complaints"
             (fun s => to_numeric_Int64 (str_extract (astype_str s))) n s in
  let s := fold_left (fun s col => at_label col (fillna_str "Unknown") n s)
                     categorical_cols s in
  fold_left (fun s col =>
               at_label col (fun s => if is_numeric_dtype s then fillna_median s else s) n s)
            numerical_cols s.

Definition treated_labels : list string :=
  ["gender"; "state"; "education"; "vehicle_class"; "customer_lifetime_value";
   "number_of_open_complaints"; "customer"; "policy_type"; "total_claim_amount";
   "monthly_premium_auto"; "customer_income"].

(** A column of strings computed from the string forms of the cells. *)
Definition string_column (g : string -> string) (s : Series) : Series :=
  ObjectS (List.map (fun c => SStr (g (cell_str c))) (cells s)).

Definition state_value (x : string) : string :=
  match assoc (Str.upper x) state_mapping with
  | Some v => v
  | None => Str.upper x
  end.

Definition lifetime_value_parsed (s : Series) : list (option float) :=
  List.map (fun c => parse_float (Str.rstrip_pct (cell_str c))) (cells s).

(** The integers that the runs of digits of a complaints column spell, and
    what the numeric cleaner makes of the column. *)
Definition complaints_read (s : Series) : list (option Z) :=
  List.map (fun c => option_map (Str.digits_value 0)
                       (Str.extract_slash_digits (cell_str c))) (cells s).

Definition complaints_parsed (s : Series) : list (option Z) :=
  through_float64 (complaints_read s).

(** The two masked assignments of [standardize_education] and
    [standardize_vehicle_class], seen on one string. *)
Definition education_value (x : string) : string :=
  if Str.starts_in ["B"; "b"]%char x then "Bachelor" else x.

Definition vehicle_class_value (x : string) : string :=
  let y := if Str.starts_in ["L"; "u"]%char x then "Luxury" else x in
  if Str.search_word "Sports" false y then "Luxury" else y.


(** *** What the specification says of single cells *)

(** The gender rule as the specification words it: the string form with a
    missing value read as the empty string, trimmed and upper-cased, then
    ["F"], ["M"] or that upper-cased trimmed string. *)
Definition gender_claimed (c : Cell) : string :=
  let t := Str.upper (Str.strip (if cell_isna c then "" else cell_str c)) in
  if Str.startswith "F" t then "F"
  else if Str.startswith "M" t then "M"
  else t.



(** [s] holds a match of [/(\d+)/] that starts after [pre] and captures
    [ds]. *)
Definition slash_digits_at (pre ds : string) (s : string) : Prop :=
  ds <> EmptyString
  /\ Str.forallb Str.is_digit ds = true
  /\ exists post, s = pre ++ String "/" (ds ++ String "/" post).

(** [ds] is the first run of digits between two slashes in [s]. *)
Definition first_slash_digits (s ds : string) : Prop :=
  exists pre,
    slash_digits_at pre ds s
    /\ forall pre' ds', slash_digits_at pre' ds' s ->
                        (String.length pre <= String.length pre')%nat.

Definition no_slash_digits (s : string) : Prop :=
  forall pre ds, ~ slash_digits_at pre ds s.

(** *** Notions used to state further properties of the stages *)

(** [k] percent signs. *)
Fixpoint pct_run (k : nat) : string :=
  match k with
  | O => EmptyString
  | S k' => String "%" (pct_run k')
  end.

(** [s] ends with the character [c]. *)
Fixpoint ends_with (c : ascii) (s : string) : bool :=
  match s with
  | EmptyString => false
  | String a EmptyString => Ascii.eqb a c
  | String _ s' => ends_with c s'
  end.

(** No character of [s] is a slash. *)
Definition no_slash (s : string) : bool :=
  Str.forallb (fun c => negb (Ascii.eqb c "/")) s.

(** No character of [s] is a lower-case letter. *)
Definition upper_case (s : string) : bool :=
  Str.forallb (fun c => negb (Str.is_lower c)) s.

(** The first character of [x] that [strip] does not remove. *)
Definition first_nonspace (x : string) : option ascii :=
  match Str.lstrip Str.is_space x with
  | EmptyString => None
  | String c _ => Some c
  end.

(** The last character of [s] is a word character; [prev] answers for the
    empty string. *)
Fixpoint last_is_word (prev : bool) (s : string) : bool :=
  match s with
  | EmptyString => prev
  | String c s' => last_is_word (Str.is_word c) s'
  end.

(** [s] holds [w] as a whole word: [w] stands in [s] with no word character
    right before it and none right after it. *)
Definition whole_word_in (w s : string) : Prop :=
  exists pre post,
    s = pre ++ w ++ post
    /\ last_is_word false pre = false
    /\ Str.boundary_here post = true.

(** The stages that work on named columns, each with the labels it reads
    or writes (complaints_missing, which the last one derives, apart). *)
Definition stage_labels : list ((DataFrame -> DataFrame) * list string) :=
  [ (standardize_gender, ["gender"]);
    (standardize_state, ["state"]);
    (standardize_education, ["education"]);
    (standardize_vehicle_class, ["vehicle_class"]);
    (clean_and_convert_numerical,
     ["customer_lifetime_value"; "number_of_open_complaints"]);
    (handle_missing_values,
     (categorical_cols ++ numerical_cols ++ ["number_of_open_complaints"])%list) ].

Definition standardizers : list (DataFrame -> DataFrame) :=
  [standardize_gender; standardize_state; standardize_education;
   standardize_vehicle_class].

(** Every element of an object column is a string. *)
Definition all_strings (s : Series) : Prop :=
  exists l, s = ObjectS (List.map SStr l).

End Frames.

(** An executable instance, to run the pipeline on concrete frames: the
    integral floats.  [20.0] is the integer 20, printed the way Python prints
    it and read back from ["20"] as well as from ["20.0"]; the mean of two
    values is rounded down to an integral value. *)

Module IntegralFloat.

(** Removes the [".0"] that ends the text of an integral float. *)
Fixpoint drop_point_zero (s : string) : string :=
  match s with
  | EmptyString => EmptyString
  | String c s' =>
      if Ascii.eqb c "." && String.eqb s' "0" then EmptyString
      else String c (drop_point_zero s')
  end.

Definition str (z : Z) : string := Str.of_Z z ++ ".0".

Definition parse (s : string) : option Z :=
  option_map Z.of_int (NilZero.int_of_string (drop_point_zero s)).

End IntegralFloat.

Definition integral_float : Float64 := {|
  float := Z;
  float_eq_dec := Z.eq_dec;
  float_leb := Z.leb;
  float_mean2 := fun x y => ((x + y) / 2)%Z;
  float_str := IntegralFloat.str;
  parse_float := IntegralFloat.parse
|}.

(** A second instance, for a parser that keeps less than [str] prints: it
    reads every number down to the even one at or below it, so that 15 is
    printed as ["15.0"] and read back as 14. *)
Definition coarse_float : Float64 := {|
  float := Z;
  float_eq_dec := Z.eq_dec;
  float_leb := Z.leb;
  float_mean2 := fun x y => ((x + y) / 2)%Z;
  float_str := IntegralFloat.str;
  parse_float := fun s => option_map (fun z => (2 * (z / 2))%Z) (IntegralFloat.parse s)
|}.

(** ** Concrete frames *)

Section CoarseExamples.

#[local] Existing Instance coarse_float.

Definition coarse_frame : DataFrame :=
  mkDF [0; 1; 2]%Z
    [("customer_lifetime_value", ObjectS [SStr "10"; SStr "20"; SStr "abc"])].

End CoarseExamples.

Section Examples.

#[local] Existing Instance integral_float.

Definition gender_frame : DataFrame :=
  mkDF [0; 1; 2; 3; 4]%Z
    [("gender", ObjectS [SStr "female"; SStr " f "; SStr "Male"; SStr "Other"; SNaN])].

Definition vehicle_frame : DataFrame :=
  mkDF [0; 1; 2; 3]%Z
    [("vehicle_class",
      ObjectS [SStr "luxury car"; SStr "Sports Car"; SStr "SUV"; SStr "Luxury Car"])].

Definition complaints_frame : DataFrame :=
  mkDF [0; 1]%Z
    [("number_of_open_complaints",
      ObjectS [SStr "Complaint/3/closed"; SStr "no match"])].



(** A raw frame: rows 0 and 1 differ only in how they spell the same
    values, row 2 is all missing. *)
Definition raw_frame : DataFrame :=
  mkDF [10; 11; 12; 13]%Z
    [("Customer", ObjectS [SStr "AB1"; SStr "AB1"; SNaN; SStr "CD2"]);
     ("ST", ObjectS [SStr "CA"; SStr "cali"; SNaN; SStr "ZZ"]);
     ("GENDER", ObjectS [SStr "female"; SStr " f "; SNaN; SStr "Male"]);
     ("Education", ObjectS [SStr "bachelors"; SStr "Bachelor of Science"; SNaN; SStr "Master"]);
     ("Customer Lifetime Value", ObjectS [SStr "45%"; SStr "45"; SNaN; SStr "abc"]);
     ("Income", Float64S [Some 10; Some 10; None; Some 40]%Z);
     ("Vehicle Class", ObjectS [SStr "Luxury Car"; SStr "Sports Car"; SNaN; SStr "SUV"]);
     ("Number of Open Complaints",
      ObjectS [SStr "no match"; SStr "1/x/2"; SNaN; SStr "none"])].

(** Rows 0 and 2 are equal cell for cell. *)
Definition duplicate_frame : DataFrame :=
  mkDF [5; 6; 7]%Z
    [("customer", ObjectS [SStr "AB1"; SStr "CD2"; SStr "AB1"]);
     ("claims", Int64S [1; 2; 1]%Z)].

Definition state_frame : DataFrame :=
  mkDF [0; 1; 2]%Z [("state", ObjectS [SStr "ca"; SStr "cali"; SStr "ZZ"])].

Definition education_frame : DataFrame :=
  mkDF [0; 1; 2]%Z
    [("education",
      ObjectS [SStr "bachelors"; SStr "Bachelor of Science"; SStr "Master"])].

(** customer_lifetime_value as text, and the complaints as plain
    integers. *)
Definition lifetime_frame : DataFrame :=
  mkDF [0; 1]%Z [("customer_lifetime_value", ObjectS [SStr "45%%"; SStr "abc"])].

Definition complaints_int_frame : DataFrame :=
  mkDF [0; 1; 2]%Z [("number_of_open_complaints", Int64S [0; 1; 2]%Z)].

(** A run of 16 digits that spells 2^53 + 1, next to a cell without the
    pattern. *)
Definition long_run_frame : DataFrame :=
  mkDF [0; 1]%Z
    [("number_of_open_complaints",
      ObjectS [SStr "Complaint/9007199254740993/closed"; SStr "no match"])].

(** A column that no stage names; rows 0 and 2 are equal once cleaned. *)
Definition channel_frame : DataFrame :=
  mkDF [0; 1; 2]%Z
    [("Sales Channel", ObjectS [SStr "Agent"; SStr "Web"; SStr "Agent"]);
     ("GENDER", ObjectS [SStr "f"; SStr "M"; SStr "Female"])].

End Examples.

(** ** The integral floats are read back from their string forms *)

Module IntegralFloatFacts.

Lemma drop_point_zero_app (s : string) : IntegralFloat.drop_point_zero (s ++ ".0") = s.
Proof.
  induction s as [|c s IH]; [reflexivity|].
  cbn [append IntegralFloat.drop_point_zero]. rewrite IH.
  destruct (String.eqb_spec (s ++ ".0") "0") as [E|_].
  - exfalso. destruct s as [|a [|b s]]; discriminate.
  - now rewrite andb_false_r.
Qed.

Lemma of_int_round_trip (d : Decimal.int) :
  option_map Z.of_int (NilZero.int_of_string (NilZero.string_of_int d))
  = Some (Z.of_int d).
Proof.
  destruct d as [u|u]; destruct u;
    try reflexivity; rewrite NilZero.isi; try reflexivity; discriminate.
Qed.

Lemma parse_str (z : Z) : IntegralFloat.parse (IntegralFloat.str z) = Some z.
Proof.
  unfold IntegralFloat.parse, IntegralFloat.str, Str.of_Z.
  now rewrite drop_point_zero_app, of_int_round_trip, DecimalZ.of_to.
Qed.

Lemma rstrip_keeps (p : ascii -> bool) (s : string) (a c : ascii) :
  p c = false ->
  Str.rstrip p (s ++ String a (String c "")) = s ++ String a (String c "").
Proof.
  intros Hc. induction s as [|x s IH]; simpl.
  - now rewrite Hc.
  - rewrite IH. destruct s; reflexivity.
Qed.

Lemma str_pct (z : Z) : Str.rstrip_pct (IntegralFloat.str z) = IntegralFloat.str z.
Proof. now apply rstrip_keeps. Qed.

Lemma reads_back_integral (o : option (@float integral_float)) :
  @reads_back integral_float (match o with Some x => CNum x | None => CNaN end) = true.
Proof.
  destruct o as [x|]; [|reflexivity].
  unfold reads_back. cbn [cell_str float_str parse_float integral_float].
  rewrite str_pct, parse_str. cbn [float_eq_dec integral_float].
  now destruct (Z.eq_dec x x).
Qed.

End IntegralFloatFacts.

(** ** Facts about strings *)

Section Facts.

Context {F : Float64}.

Lemma span_digits_spec (s ds rest : string) :
  Str.span_digits s = (ds, rest) ->
  s = ds ++ rest /\ Str.forallb Str.is_digit ds = true.
Proof.
  revert ds rest. induction s as [|c s IH]; intros ds rest; simpl.
  - intros [= <- <-]. now split.
  - destruct (Str.is_digit c) eqn:Hc.
    + destruct (Str.span_digits s) as [ds' rest'] eqn:E.
      intros [= <- <-]. destruct (IH _ _ eq_refl) as [-> Hd].
      split; [reflexivity | simpl; now rewrite Hc].
    + intros [= <- <-]. now split.
Qed.

Lemma span_digits_app (ds post : string) :
  Str.forallb Str.is_digit ds = true ->
  Str.span_digits (ds ++ String "/" post) = (ds, String "/" post).
Proof.
  induction ds as [|c ds IH]; simpl; [reflexivity|].
  intros H. apply andb_prop in H as [Hc Hd].
  now rewrite Hc, (IH Hd).
Qed.

Lemma match_here_sound (s ds : string) :
  Str.match_here s = Some ds -> slash_digits_at "" ds s.
Proof.
  destruct s as [|c s]; [discriminate|]. simpl.
  destruct (Ascii.eqb_spec c "/") as [->|]; [|discriminate].
  destruct (Str.span_digits s) as [[|d run] [|e rest]] eqn:E; try discriminate.
  destruct (Ascii.eqb_spec e "/") as [->|]; [|discriminate].
  intros [= <-]. destruct (span_digits_spec _ _ _ E) as [-> Hd].
  repeat split; [discriminate | exact Hd | now exists rest].
Qed.

Lemma match_here_complete (s ds : string) :
  slash_digits_at "" ds s -> Str.match_here s = Some ds.
Proof.
  intros (Hne & Hd & post & ->). simpl.
  rewrite (span_digits_app _ _ Hd).
  destruct ds; [congruence | reflexivity].
Qed.

Lemma slash_digits_at_cons (a c : ascii) (pre ds s : string) :
  slash_digits_at (String a pre) ds (String c s) <->
  a = c /\ slash_digits_at pre ds s.
Proof.
  unfold slash_digits_at. split.
  - intros (Hne & Hd & post & E). simpl in E. injection E as Ea Es.
    split; [now symmetry|]. split; [exact Hne|]. split; [exact Hd|].
    now exists post.
  - intros (-> & Hne & Hd & post & ->).
    split; [exact Hne|]. split; [exact Hd|]. now exists post.
Qed.

Lemma extract_some (s ds : string) :
  Str.extract_slash_digits s = Some ds -> first_slash_digits s ds.
Proof.
  revert ds. induction s as [|c s IH]; intros ds; [discriminate|].
  cbn [Str.extract_slash_digits].
  destruct (Str.match_here (String c s)) as [r|] eqn:E.
  - intros [= <-]. exists "". split; [now apply match_here_sound|].
    intros; simpl; lia.
  - intros H. destruct (IH _ H) as (pre & Hat & Hmin).
    exists (String c pre). split; [now apply slash_digits_at_cons|].
    intros [|a pre'] ds' H'.
    + apply match_here_complete in H'. congruence.
    + apply slash_digits_at_cons in H' as [_ H'].
      specialize (Hmin _ _ H'). simpl; lia.
Qed.

Lemma extract_none (s : string) :
  Str.extract_slash_digits s = None -> no_slash_digits s.
Proof.
  induction s as [|c s IH]; intros H pre ds Hat.
  - destruct Hat as (_ & _ & post & E). destruct pre; discriminate.
  - cbn [Str.extract_slash_digits] in H.
    destruct (Str.match_here (String c s)) as [r|] eqn:E; [discriminate|].
    destruct pre as [|a pre].
    + apply match_here_complete in Hat. congruence.
    + apply slash_digits_at_cons in Hat as [_ Hat]. exact (IH H _ _ Hat).
Qed.

Lemma first_extract (s ds : string) :
  first_slash_digits s ds -> Str.extract_slash_digits s = Some ds.
Proof.
  revert ds. induction s as [|c s IH]; intros ds (pre & Hat & Hmin).
  - destruct Hat as (_ & _ & post & E). destruct pre; discriminate.
  - cbn [Str.extract_slash_digits]. destruct pre as [|a pre].
    + now rewrite (match_here_complete _ _ Hat).
    + destruct (Str.match_here (String c s)) as [r|] eqn:E.
      * apply match_here_sound in E. specialize (Hmin _ _ E). simpl in Hmin. lia.
      * apply slash_digits_at_cons in Hat as [-> Hat].
        apply IH. exists pre. split; [exact Hat|].
        intros pre' ds' H'.
        assert (H2 : slash_digits_at (String c pre') ds' (String c s))
          by now apply slash_digits_at_cons.
        specialize (Hmin _ _ H2). simpl in Hmin. lia.
Qed.

Lemma extract_digits (s ds : string) :
  Str.extract_slash_digits s = Some ds ->
  exists d ds', ds = String d ds' /\ Str.forallb Str.is_digit ds = true.
Proof.
  intros H. apply extract_some in H as (pre & (Hne & Hd & _) & _).
  destruct ds as [|d ds']; [congruence|]. now exists d, ds'.
Qed.

(** ** Facts about columns *)

Lemma lookup_store_same (n : string) (s : Series) (cs : list (string * Series)) :
  lookup n (store n s cs) = Some s.
Proof.
  induction cs as [|[m t] cs IH]; simpl.
  - now rewrite String.eqb_refl.
  - destruct (String.eqb_spec n m) as [<-|Hn]; simpl.
    + now rewrite String.eqb_refl.
    + now apply String.eqb_neq in Hn as ->.
Qed.

Lemma lookup_store_other (n m : string) (s : Series) (cs : list (string * Series)) :
  n <> m -> lookup n (store m s cs) = lookup n cs.
Proof.
  intros Hnm. induction cs as [|[k t] cs IH]; simpl.
  - now apply String.eqb_neq in Hnm as ->.
  - destruct (String.eqb_spec m k) as [<-|Hm]; simpl.
    + now apply String.eqb_neq in Hnm as ->.
    + now rewrite IH.
Qed.

Lemma has_column_lookup (n : string) (df : DataFrame) :
  has_column n df = match getitem n df with Some _ => true | None => false end.
Proof.
  unfold has_column, getitem, labels. induction (columns df) as [|[m t] cs IH]; simpl.
  - reflexivity.
  - now destruct (String.eqb n m).
Qed.

Lemma on_column_spec (n : string) (f : Series -> Series) (df : DataFrame) :
  on_column n f df
  = match getitem n df with Some s => setitem n (f s) df | None => df end.
Proof.
  unfold on_column. rewrite has_column_lookup. now destruct (getitem n df).
Qed.

Lemma getitem_on_column_same (n : string) (f : Series -> Series) (df : DataFrame) :
  getitem n (on_column n f df) = option_map f (getitem n df).
Proof.
  rewrite on_column_spec. destruct (getitem n df) as [s|] eqn:E; simpl.
  - apply lookup_store_same.
  - exact E.
Qed.

Lemma getitem_on_column_other (n m : string) (f : Series -> Series) (df : DataFrame) :
  n <> m -> getitem n (on_column m f df) = getitem n df.
Proof.
  intros Hnm. rewrite on_column_spec. destruct (getitem m df); [|reflexivity].
  now apply lookup_store_other.
Qed.

Lemma labels_store_present (n : string) (s t : Series) (cs : list (string * Series)) :
  lookup n cs = Some t -> List.map fst (store n s cs) = List.map fst cs.
Proof.
  induction cs as [|[m u] cs IH]; simpl; [discriminate|].
  destruct (String.eqb n m); simpl; [reflexivity|].
  intros H. now rewrite IH.
Qed.

Lemma labels_store_absent (n : string) (s : Series) (cs : list (string * Series)) :
  lookup n cs = None -> List.map fst (store n s cs) = (List.map fst cs ++ [n])%list.
Proof.
  induction cs as [|[m u] cs IH]; simpl; [reflexivity|].
  destruct (String.eqb n m); simpl; [discriminate|].
  intros H. now rewrite IH.
Qed.

Lemma labels_on_column (n : string) (f : Series -> Series) (df : DataFrame) :
  labels (on_column n f df) = labels df.
Proof.
  rewrite on_column_spec. destruct (getitem n df) as [s|] eqn:E; [|reflexivity].
  exact (labels_store_present _ _ _ _ E).
Qed.

Lemma index_on_column (n : string) (f : Series -> Series) (df : DataFrame) :
  index (on_column n f df) = index df.
Proof. rewrite on_column_spec. now destruct (getitem n df). Qed.

Lemma assign_where_map (p : Scalar -> bool) (v : Scalar) (l : list Scalar) :
  assign_where (List.map p l) v l = List.map (fun x => if p x then v else x) l.
Proof. induction l as [|x l IH]; simpl; [reflexivity | now rewrite IH]. Qed.

(** What each string stage makes of a column, cell by cell. *)

Lemma gender_column (s : Series) :
  apply_str gender_value (fillna_str "" (astype_str s))
  = ObjectS (List.map (fun c => SStr (gender_value (cell_str c))) (cells s)).
Proof. unfold astype_str. simpl. now rewrite !map_map. Qed.

Lemma state_column (s : Series) :
  replace_map state_mapping (str_map Str.upper (astype_str s))
  = ObjectS (List.map
               (fun c => SStr (match assoc (Str.upper (cell_str c)) state_mapping with
                               | Some v => v
                               | None => Str.upper (cell_str c)
                               end)) (cells s)).
Proof. unfold astype_str, replace_map, str_map. simpl. now rewrite !map_map. Qed.

Lemma education_column (s : Series) :
  loc_assign (str_contains (Str.starts_in ["B"; "b"]%char) (astype_str s))
             "Bachelor" (astype_str s)
  = ObjectS (List.map (fun c => SStr (education_value (cell_str c))) (cells s)).
Proof.
  unfold astype_str, loc_assign, str_contains.
  rewrite assign_where_map, map_map. f_equal. apply map_ext. intros c.
  unfold education_value. now destruct (Str.starts_in _ (cell_str c)).
Qed.

Lemma vehicle_class_column (s : Series) :
  (let s := astype_str s in
   let s := loc_assign (str_contains (Str.starts_in ["L"; "u"]%char) s) "Luxury" s in
   loc_assign (str_contains (Str.search_word "Sports" false) s) "Luxury" s)
  = ObjectS (List.map (fun c => SStr (vehicle_class_value (cell_str c))) (cells s)).
Proof.
  cbv zeta. unfold astype_str. cbn [loc_assign str_contains].
  rewrite assign_where_map. cbn [loc_assign str_contains].
  rewrite assign_where_map, !map_map. f_equal. apply map_ext. intros c.
  unfold vehicle_class_value.
  destruct (Str.starts_in _ (cell_str c)); cbv zeta.
  - reflexivity.
  - now destruct (Str.search_word "Sports" false (cell_str c)).
Qed.

Lemma getitem_setitem_same (n : string) (s : Series) (df : DataFrame) :
  getitem n (setitem n s df) = Some s.
Proof. apply lookup_store_same. Qed.

Lemma getitem_setitem_other (n m : string) (s : Series) (df : DataFrame) :
  n <> m -> getitem n (setitem m s df) = getitem n df.
Proof. apply lookup_store_other. Qed.

(** Reads a column through the assignments made to columns around it. *)
Ltac read_column :=
  repeat first
    [ rewrite getitem_on_column_same
    | rewrite getitem_on_column_other by discriminate
    | rewrite getitem_setitem_same
    | rewrite getitem_setitem_other by discriminate ].

(** ** The gender standardizer *)

(** C2 (amended): for every cell of the gender column that is not missing,
    with [x] its string form: the output is "F" when [x] trimmed and
    upper-cased starts with F, "M" when it starts with M, and otherwise [x]
    itself, neither trimmed nor upper-cased. *)
Theorem standardize_gender_cells (df : DataFrame) (s : Series) :
  getitem "gender" df = Some s ->
  exists out,
    getitem "gender" (standardize_gender df) = Some (ObjectS out)
    /\ List.length out = len s
    /\ forall i c,
         nth_error (cells s) i = Some c -> cell_isna c = false ->
         let t := Str.upper (Str.strip (cell_str c)) in
         nth_error out i
         = Some (SStr (if Str.startswith "F" t then "F"
                       else if Str.startswith "M" t then "M"
                       else cell_str c)).
Proof.
  intros Hs. unfold standardize_gender. read_column. rewrite Hs. cbn [option_map].
  rewrite gender_column. eexists. split; [reflexivity|].
  split; [apply length_map|].
  intros i c Hc _. cbv zeta. now rewrite nth_error_map, Hc.
Qed.

Lemma standardize_gender_absent (df : DataFrame) :
  getitem "gender" df = None -> standardize_gender df = df.
Proof. intros H. unfold standardize_gender. now rewrite on_column_spec, H. Qed.

(** ** The numeric cleaner *)

Lemma complaints_column (s : Series) :
  to_numeric_Int64 (str_extract (astype_str s)) = NullableIntS (complaints_parsed s).
Proof.
  unfold astype_str, complaints_parsed, complaints_read.
  cbn [str_extract to_numeric_Int64]. rewrite !map_map.
  do 2 f_equal. apply map_ext. intros c.
  destruct (Str.extract_slash_digits (cell_str c)) as [ds|] eqn:E; [|reflexivity].
  destruct (extract_digits _ _ E) as (d & ds' & -> & Hd).
  cbn [read_digits option_map]. now rewrite Hd.
Qed.

(** *** Integers that a float64 holds *)

Lemma float64_nearest_small (z : Z) :
  (z < 2 ^ 53)%Z -> float64_nearest z = z.
Proof.
  intros H. unfold float64_nearest.
  now destruct (Z.ltb_spec z (2 ^ 53)) as [_|H']; [|lia].
Qed.

Lemma float64_nearest_nonneg (z : Z) :
  (0 <= z)%Z -> (0 <= float64_nearest z)%Z.
Proof.
  intros H. unfold float64_nearest.
  destruct (Z.ltb_spec z (2 ^ 53)) as [_|_]; [exact H|]. cbv zeta.
  set (gap := (2 ^ (Z.log2 z - 52))%Z).
  assert (Hg : (0 <= gap)%Z) by (apply Z.pow_nonneg; lia).
  assert (Hq' : (0 <= z / gap)%Z).
  { destruct (Z.eq_dec gap 0) as [E|E].
    - rewrite E. now rewrite Z.div_0_r.
    - apply Z.div_pos; lia. }
  repeat match goal with |- context [if ?b then _ else _] => destruct b end; nia.
Qed.

Lemma through_float64_length (l : list (option Z)) :
  List.length (through_float64 l) = List.length l.
Proof. unfold through_float64. destruct (has_nan l); [apply length_map | reflexivity]. Qed.

Lemma through_float64_In (l : list (option Z)) (o : option Z) :
  In o (through_float64 l) ->
  exists o', In o' l /\ (o = o' \/ o = option_map float64_nearest o').
Proof.
  unfold through_float64. destruct (has_nan l).
  - intros H. apply in_map_iff in H as (o' & <- & H). exists o'. tauto.
  - intros H. exists o. tauto.
Qed.

Lemma through_float64_exact (l : list (option Z)) :
  (forall z, In (Some z) l -> (z < 2 ^ 53)%Z) -> through_float64 l = l.
Proof.
  intros H. unfold through_float64. destruct (has_nan l); [|reflexivity].
  induction l as [|o l IH]; [reflexivity|]. cbn [List.map]. f_equal.
  - destruct o as [z|]; [|reflexivity]. cbn [option_map].
    now rewrite float64_nearest_small by (apply H; now left).
  - apply IH. intros z Hz. apply H. now right.
Qed.

Lemma through_float64_all_missing (l : list (option Z)) (o : option Z) :
  (forall o', In o' l -> o' = None) -> In o (through_float64 l) -> o = None.
Proof.
  intros H Ho. apply through_float64_In in Ho as (o' & Ho' & [->| ->]).
  - now apply H.
  - now rewrite (H _ Ho').
Qed.

Lemma digits_value_nonneg (ds : string) (acc : Z) :
  (0 <= acc)%Z -> (0 <= Str.digits_value acc ds)%Z.
Proof.
  revert acc. induction ds as [|c ds IH]; intros acc H; [exact H|].
  cbn [Str.digits_value]. apply IH. lia.
Qed.

(** A run of [k] digits spells a number below [10 ^ k]. *)
Lemma digits_value_bound (ds : string) (acc : Z) :
  Str.forallb Str.is_digit ds = true ->
  (0 <= acc)%Z ->
  (Str.digits_value acc ds < (acc + 1) * 10 ^ Z.of_nat (String.length ds))%Z.
Proof.
  revert acc. induction ds as [|c ds IH]; intros acc Hd Hacc.
  - cbn [Str.digits_value String.length]. change (10 ^ Z.of_nat 0)%Z with 1%Z. lia.
  - cbn [Str.forallb] in Hd. apply andb_prop in Hd as [Hc Hds].
    cbn [Str.digits_value String.length].
    unfold Str.is_digit, Str.in_range in Hc. apply andb_prop in Hc as [Hlo Hhi].
    apply Nat.leb_le in Hlo, Hhi.
    set (d := Z.of_nat (Str.code c - 48)).
    assert (Hdig : (0 <= d <= 9)%Z) by (unfold d; lia).
    specialize (IH (10 * acc + d)%Z Hds ltac:(lia)).
    rewrite Nat2Z.inj_succ, Z.pow_succ_r by lia.
    assert (Hp : (0 < 10 ^ Z.of_nat (String.length ds))%Z)
      by (apply Z.pow_pos_nonneg; lia).
    nia.
Qed.

Lemma short_run_exact (k : nat) (ds : string) :
  Str.forallb Str.is_digit ds = true ->
  (String.length ds <= k)%nat -> (k <= 15)%nat ->
  (Str.digits_value 0 ds < 2 ^ 53)%Z.
Proof.
  intros Hd Hlen Hk.
  pose proof (digits_value_bound ds 0 Hd (Z.le_refl 0)) as H.
  assert (Hp : (10 ^ Z.of_nat (String.length ds) <= 10 ^ 15)%Z)
    by (apply Z.pow_le_mono_r; lia).
  assert (H15 : (10 ^ 15 < 2 ^ 53)%Z) by reflexivity.
  lia.
Qed.

(** With runs of at most 15 digits every integer of the column is a
    float64, so that the column is the same whether it goes through float64
    or not. *)
Lemma complaints_read_within (k : nat) (s : Series) (z : Z) :
  (k <= 15)%nat -> runs_within k s = true ->
  In (Some z) (complaints_read s) -> (0 <= z < 2 ^ 53)%Z.
Proof.
  intros Hk H Hz. unfold complaints_read in Hz.
  apply in_map_iff in Hz as (c & Hc & Hin).
  unfold runs_within in H. rewrite forallb_forall in H.
  specialize (H _ Hin). unfold run_within in H.
  destruct (Str.extract_slash_digits (cell_str c)) as [ds|] eqn:E; [|discriminate].
  injection Hc as <-. apply Nat.leb_le in H.
  destruct (extract_digits _ _ E) as (_ & _ & _ & Hd).
  split; [now apply digits_value_nonneg | exact (short_run_exact k ds Hd H Hk)].
Qed.

Lemma complaints_parsed_within (k : nat) (s : Series) :
  (k <= 15)%nat -> runs_within k s = true -> complaints_parsed s = complaints_read s.
Proof.
  intros Hk H. unfold complaints_parsed. apply through_float64_exact.
  intros z Hz. exact (proj2 (complaints_read_within k s z Hk H Hz)).
Qed.

(** C5 (amended): in a number_of_open_complaints column whose captured runs
    of digits have at most 15 digits each, every cell becomes the integer
    written by the first run of digits between two slashes of its string
    form, and the missing marker when the string form holds no such run.
    Every integer of the column is then below 2^53: a float64 and an Int64
    hold it as it is, the conversion has nothing to round and nothing to
    refuse. *)
Theorem complaints_extracted (df : DataFrame) (s : Series) :
  getitem "number_of_open_complaints" df = Some s ->
  runs_within 15 s = true ->
  exists out,
    getitem "number_of_open_complaints" (clean_and_convert_numerical df)
    = Some (NullableIntS out)
    /\ List.length out = len s
    /\ (forall z, In (Some z) out -> (0 <= z < 2 ^ 53)%Z)
    /\ forall i c,
         nth_error (cells s) i = Some c ->
         (forall ds, first_slash_digits (cell_str c) ds ->
                     nth_error out i = Some (Some (Str.digits_value 0 ds)))
         /\ (no_slash_digits (cell_str c) -> nth_error out i = Some None).
Proof.
  intros Hs Hruns. unfold clean_and_convert_numerical. read_column. rewrite Hs.
  cbn [option_map].
  rewrite complaints_column, (complaints_parsed_within 15 s (Nat.le_refl 15) Hruns).
  eexists. split; [reflexivity|].
  split; [unfold complaints_read; apply length_map|].
  split; [intros z; exact (complaints_read_within 15 s z (Nat.le_refl 15) Hruns)|].
  unfold complaints_read.
  intros i c Hc. rewrite nth_error_map, Hc. cbn [option_map]. split.
  - intros ds Hfirst. now rewrite (first_extract _ _ Hfirst).
  - intros Hno.
    destruct (Str.extract_slash_digits (cell_str c)) as [ds|] eqn:E; [|reflexivity].
    apply extract_some in E as (pre & Hat & _). now destruct (Hno _ _ Hat).
Qed.

(** ** The missing-value stage *)

(** C6: when number_of_open_complaints exists, the stage sets
    complaints_missing to the boolean column that is true exactly on the
    rows whose complaints cell is missing, and leaves the complaints column
    as it was; when it does not exist, no column is added and
    complaints_missing is not touched. *)
Theorem complaints_missing_column (df : DataFrame) :
  (forall s,
     getitem "number_of_open_complaints" df = Some s ->
     getitem "complaints_missing" (handle_missing_values df)
     = Some (BoolS (List.map cell_isna (cells s)))
     /\ getitem "number_of_open_complaints" (handle_missing_values df) = Some s)
  /\ (getitem "number_of_open_complaints" df = None ->
      labels (handle_missing_values df) = labels df
      /\ getitem "complaints_missing" (handle_missing_values df)
         = getitem "complaints_missing" df).
Proof.
  unfold handle_missing_values, derive_complaints_missing, categorical_cols,
    numerical_cols.
  cbn [fold_left].
  match goal with
  | |- context [match getitem "number_of_open_complaints" ?d with _ => _ end] =>
      assert (E : getitem "number_of_open_complaints" d
                  = getitem "number_of_open_complaints" df) by (now read_column);
      assert (L : labels d = labels df) by (now rewrite !labels_on_column);
      assert (M : getitem "complaints_missing" d = getitem "complaints_missing" df)
        by (now read_column);
      rewrite E
  end.
  split.
  - intros s Hs. rewrite Hs. read_column. now rewrite Hs.
  - intros Hn. rewrite Hn. now split.
Qed.

(** *** The median *)



Lemma insert_sorted_sorted (x : float) (l : list float) :
  (forall a b, float_leb a b = true \/ float_leb b a = true) ->
  Sorted (fun a b => float_leb a b = true) l ->
  Sorted (fun a b => float_leb a b = true) (insert_sorted x l).
Proof.
  intros Htotal. induction 1 as [|y l Hs IH Hhd]; simpl.
  - repeat constructor.
  - destruct (float_leb x y) eqn:Hxy.
    + constructor; [now constructor | now constructor].
    + constructor; [exact IH|].
      assert (Hyx : float_leb y x = true)
        by (destruct (Htotal x y); congruence).
      destruct Hhd as [|z l Hyz]; simpl; [now constructor|].
      destruct (float_leb x z); now constructor.
Qed.

Lemma sort_values_sorted (l : list float) :
  (forall a b, float_leb a b = true \/ float_leb b a = true) ->
  Sorted (fun a b => float_leb a b = true) (sort_values l).
Proof.
  intros Htotal.
  induction l as [|x l IH]; simpl; [constructor | now apply insert_sorted_sorted].
Qed.




(** ** The pipeline, column by column *)

Lemma existsb_eqb_false (n : string) (cs : list (string * Series)) :
  existsb (String.eqb n) (List.map fst cs) = false ->
  forall c, In c cs -> fst c <> n.
Proof.
  intros H c Hc Heq.
  assert (E : existsb (String.eqb n) (List.map fst cs) = true).
  { apply existsb_exists. exists (fst c). split; [now apply in_map|].
    rewrite Heq. apply String.eqb_refl. }
  congruence.
Qed.

Lemma store_map (n : string) (f : Series -> Series) (cs : list (string * Series)) :
  distinct (List.map fst cs) = true ->
  match lookup n cs with Some s => store n (f s) cs | None => cs end
  = List.map (fun c => (fst c, at_label n f (fst c) (snd c))) cs.
Proof.
  induction cs as [|[m t] cs IH]; [reflexivity|].
  cbn [List.map fst distinct lookup store snd]. intros H.
  apply andb_prop in H as [Hm Hd]. apply negb_true_iff in Hm.
  unfold at_label at 1. rewrite (String.eqb_sym m n).
  destruct (String.eqb_spec n m) as [<-|Hn].
  - f_equal.
    rewrite <- (map_id cs) at 1. apply map_ext_in. intros [k u] Hc.
    unfold at_label. cbn [fst snd].
    pose proof (existsb_eqb_false _ _ Hm _ Hc) as Hk. cbn [fst] in Hk.
    now apply String.eqb_neq in Hk as ->.
  - rewrite <- (IH Hd). now destruct (lookup n cs).
Qed.

Lemma on_column_map (n : string) (f : Series -> Series) (df : DataFrame) :
  distinct (labels df) = true ->
  on_column n f df = map_columns (at_label n f) df.
Proof.
  intros H. rewrite on_column_spec. unfold map_columns, getitem, setitem.
  rewrite <- (store_map n f _ H). destruct df as [ix cs]; cbn [columns index].
  now destruct (lookup n cs).
Qed.

Lemma labels_map_columns (g : string -> Series -> Series) (df : DataFrame) :
  labels (map_columns g df) = labels df.
Proof. unfold labels, map_columns. cbn [columns]. rewrite map_map. reflexivity. Qed.

Lemma map_columns_compose (g h : string -> Series -> Series) (df : DataFrame) :
  map_columns g (map_columns h df) = map_columns (fun n s => g n (h n s)) df.
Proof. unfold map_columns. cbn [columns index]. now rewrite map_map. Qed.

Lemma before_duplicates_columns (df : DataFrame) :
  distinct (labels (clean_column_names df)) = true ->
  before_duplicates df
  = derive_complaints_missing (map_columns treatment (clean_column_names df)).
Proof.
  intros H. unfold before_duplicates, handle_missing_values.
  f_equal.
  unfold clean_and_convert_numerical, standardize_vehicle_class,
    standardize_education, standardize_state, standardize_gender,
    categorical_cols, numerical_cols.
  cbn [fold_left].
  repeat (rewrite on_column_map
            by (now rewrite ?labels_on_column, ?labels_map_columns)).
  rewrite !map_columns_compose.
  reflexivity.
Qed.

Lemma at_label_same (l : string) (f : Series -> Series) (s : Series) :
  at_label l f l s = f s.
Proof. unfold at_label. now rewrite String.eqb_refl. Qed.

Lemma at_label_other (l n : string) (f : Series -> Series) (s : Series) :
  n <> l -> at_label l f n s = s.
Proof. unfold at_label. intros H. now apply String.eqb_neq in H as ->. Qed.

Ltac run_treatment :=
  unfold treatment, categorical_cols, numerical_cols;
  cbn [fold_left]; cbv zeta;
  repeat first
    [ rewrite at_label_same
    | rewrite at_label_other by discriminate ];
  cbv beta.

Lemma fillna_str_string_column (v : string) (g : string -> string) (s : Series) :
  fillna_str v (string_column g s) = string_column g s.
Proof.
  unfold string_column. cbn [fillna_str]. now rewrite map_map.
Qed.

Lemma treatment_gender (s : Series) :
  treatment "gender" s = string_column gender_value s.
Proof.
  run_treatment. rewrite gender_column. exact (fillna_str_string_column _ gender_value s).
Qed.

Lemma treatment_state (s : Series) :
  treatment "state" s = string_column state_value s.
Proof.
  run_treatment. rewrite state_column. exact (fillna_str_string_column _ state_value s).
Qed.

Lemma treatment_education (s : Series) :
  treatment "education" s = string_column education_value s.
Proof.
  run_treatment. rewrite education_column. exact (fillna_str_string_column _ education_value s).
Qed.

Lemma treatment_vehicle_class (s : Series) :
  treatment "vehicle_class" s = string_column vehicle_class_value s.
Proof.
  run_treatment.
  pose proof (vehicle_class_column s) as E. cbv zeta in E. rewrite E.
  exact (fillna_str_string_column _ vehicle_class_value s).
Qed.

Lemma lifetime_value_column (s : Series) :
  to_numeric_float64 (str_map Str.rstrip_pct (astype_str s))
  = Float64S (lifetime_value_parsed s).
Proof.
  unfold astype_str, lifetime_value_parsed. cbn [str_map apply_str to_numeric_float64].
  now rewrite !map_map.
Qed.

Lemma treatment_lifetime_value (s : Series) :
  treatment "customer_lifetime_value" s
  = Float64S (fill_with (median (lifetime_value_parsed s)) (lifetime_value_parsed s)).
Proof. run_treatment. now rewrite lifetime_value_column. Qed.

Lemma treatment_complaints (s : Series) :
  treatment "number_of_open_complaints" s = NullableIntS (complaints_parsed s).
Proof. run_treatment. apply complaints_column. Qed.

Lemma treatment_customer (s : Series) :
  treatment "customer" s = fillna_str "Unknown" s.
Proof. now run_treatment. Qed.

Lemma treatment_policy_type (s : Series) :
  treatment "policy_type" s = fillna_str "Unknown" s.
Proof. now run_treatment. Qed.

Lemma treatment_total_claim_amount (s : Series) :
  treatment "total_claim_amount" s = if is_numeric_dtype s then fillna_median s else s.
Proof. now run_treatment. Qed.

Lemma treatment_monthly_premium_auto (s : Series) :
  treatment "monthly_premium_auto" s = if is_numeric_dtype s then fillna_median s else s.
Proof. now run_treatment. Qed.

Lemma treatment_customer_income (s : Series) :
  treatment "customer_income" s = if is_numeric_dtype s then fillna_median s else s.
Proof. now run_treatment. Qed.

Lemma treatment_other (n : string) (s : Series) :
  ~ In n treated_labels -> treatment n s = s.
Proof.
  intros H. unfold treatment, categorical_cols, numerical_cols.
  cbn [fold_left]. cbv zeta.
  repeat (rewrite at_label_other
            by (intros ->; apply H; unfold treated_labels; simpl; tauto)).
  reflexivity.
Qed.

(** The case analysis on a label: one of the treated labels, or any other. *)
Ltac by_label n :=
  let H := fresh "H" in
  destruct (in_dec string_dec n treated_labels) as [H|H];
  [ unfold treated_labels in H; cbn [In] in H;
    repeat (destruct H as [H|H]; [subst n|]); [..|contradiction]
  | rewrite ?(treatment_other n) by exact H ].

(** ** Column names *)

Lemma forallb_map_string (p : ascii -> bool) (f : ascii -> ascii) (s : string) :
  (forall c, p (f c) = true) -> Str.forallb p (Str.map f s) = true.
Proof.
  intros H. induction s as [|c s IH]; [reflexivity|]. simpl. now rewrite H, IH.
Qed.

Lemma map_map_string (f g : ascii -> ascii) (s : string) :
  Str.map f (Str.map g s) = Str.map (fun c => f (g c)) s.
Proof. induction s as [|c s IH]; [reflexivity|]. simpl. now rewrite IH. Qed.

Lemma label_clean_normalize (n : string) : label_clean (normalize_label n) = true.
Proof.
  unfold label_clean, normalize_label, Str.replace_char, Str.lower.
  rewrite map_map_string. apply forallb_map_string.
  intros c. destruct c as [[] [] [] [] [] [] [] []]; reflexivity.
Qed.

Lemma label_clean_rename (n : string) :
  label_clean n = true -> label_clean (rename_label n) = true.
Proof.
  unfold rename_label. intros H.
  destruct (String.eqb n "st"); [reflexivity|].
  destruct (String.eqb n "income"); [reflexivity | exact H].
Qed.

Lemma labels_clean_column_names (df : DataFrame) :
  labels (clean_column_names df)
  = List.map (fun n => rename_label (normalize_label n)) (labels df).
Proof.
  unfold labels, clean_column_names. cbn [columns]. now rewrite !map_map.
Qed.

Lemma has_column_labels (n : string) (df df' : DataFrame) :
  labels df = labels df' -> has_column n df = has_column n df'.
Proof. unfold has_column. now intros ->. Qed.

Lemma labels_derive_complaints_missing (df : DataFrame) :
  labels (derive_complaints_missing df)
  = (labels df
     ++ if has_column "number_of_open_complaints" df
           && negb (has_column "complaints_missing" df)
        then ["complaints_missing"] else [])%list.
Proof.
  unfold derive_complaints_missing. rewrite !has_column_lookup.
  destruct (getitem "number_of_open_complaints" df) as [s|]; cbn [andb].
  - destruct (getitem "complaints_missing" df) as [t|] eqn:E; cbn [negb].
    + rewrite app_nil_r. exact (labels_store_present _ _ _ _ E).
    + exact (labels_store_absent _ _ _ E).
  - now rewrite app_nil_r.
Qed.

Lemma labels_before_handle (df : DataFrame) :
  labels (clean_and_convert_numerical
            (standardize_vehicle_class
               (standardize_education
                  (standardize_state (standardize_gender df)))))
  = labels df.
Proof.
  unfold clean_and_convert_numerical, standardize_vehicle_class,
    standardize_education, standardize_state, standardize_gender.
  now rewrite !labels_on_column.
Qed.

Lemma labels_before_duplicates (df : DataFrame) :
  labels (before_duplicates df)
  = (labels (clean_column_names df)
     ++ if has_column "number_of_open_complaints" (clean_column_names df)
           && negb (has_column "complaints_missing" (clean_column_names df))
        then ["complaints_missing"] else [])%list.
Proof.
  unfold before_duplicates, handle_missing_values, categorical_cols, numerical_cols.
  cbn [fold_left]. rewrite labels_derive_complaints_missing.
  match goal with
  | |- (labels ?d ++ _)%list = _ =>
      assert (L : labels d = labels (clean_column_names df))
        by (rewrite !labels_on_column; apply labels_before_handle);
      rewrite (has_column_labels "number_of_open_complaints" _ _ L),
        (has_column_labels "complaints_missing" _ _ L), L
  end.
  reflexivity.
Qed.

Lemma labels_remove_duplicates (df : DataFrame) :
  labels (fst (remove_duplicates df)) = labels df.
Proof.
  unfold remove_duplicates, reset_index, drop_duplicates, labels.
  cbn [fst columns]. destruct (empty df); cbn [columns]; [reflexivity|].
  now rewrite map_map.
Qed.

Lemma main_cleaning_pipeline_eq (df : DataFrame) :
  main_cleaning_pipeline df
  = (reset_index (drop_duplicates (before_duplicates df)),
     ["Starting the data cleaning and formatting pipeline...";
      "Number of duplicate rows removed: "
      ++ Str.of_nat (nrows (before_duplicates df)
                     - nrows (reset_index (drop_duplicates (before_duplicates df))));
      "Data cleaning pipeline completed successfully."]).
Proof.
  unfold main_cleaning_pipeline, remove_duplicates, before_duplicates.
  cbv zeta. cbn [List.app]. reflexivity.
Qed.

Lemma main_cleaning_pipeline_frame (df : DataFrame) :
  fst (main_cleaning_pipeline df) = fst (remove_duplicates (before_duplicates df)).
Proof. now rewrite main_cleaning_pipeline_eq. Qed.

(** C8: every column name of the pipeline's output is in lower case and has
    no space, and the column that stands at position [i] of the input under
    the name [n] stands at position [i] of the output under "state" when [n]
    lower-cased with spaces turned into underscores is "st", under
    "customer_income" when it is "income", and under that normalized name
    otherwise. *)
Theorem column_names_normalized (df : DataFrame) :
  (forall n, In n (labels (fst (main_cleaning_pipeline df))) -> label_clean n = true)
  /\ (forall i n,
        nth_error (labels df) i = Some n ->
        let m := Str.replace_char " " "_" (Str.lower n) in
        nth_error (labels (fst (main_cleaning_pipeline df))) i
        = Some (if String.eqb m "st" then "state"
                else if String.eqb m "income" then "customer_income"
                else m)).
Proof.
  rewrite main_cleaning_pipeline_frame, labels_remove_duplicates,
    labels_before_duplicates, labels_clean_column_names.
  split.
  - intros n Hn. apply in_app_or in Hn as [Hn|Hn].
    + apply in_map_iff in Hn as (m & <- & _).
      apply label_clean_rename, label_clean_normalize.
    + destruct (_ && _); [|contradiction].
      destruct Hn as [<-|[]]. reflexivity.
  - intros i n Hn. cbv zeta.
    rewrite nth_error_app1.
    + now rewrite nth_error_map, Hn.
    + rewrite length_map. apply nth_error_Some. congruence.
Qed.

(** ** Rows are kept *)

Lemma len_astype_str (s : Series) : len (astype_str s) = len s.
Proof. unfold len, astype_str. cbn [cells]. now rewrite !length_map. Qed.

Lemma len_isnull (s : Series) : len (isnull s) = len s.
Proof. unfold len, isnull. cbn [cells]. now rewrite !length_map. Qed.

Lemma len_fillna_str (v : string) (s : Series) : len (fillna_str v s) = len s.
Proof.
  unfold len. destruct s as [l|l|l|l|l]; cbn [fillna_str]; try reflexivity.
  - cbn [cells]. now rewrite !length_map.
  - destruct (has_nan l); cbn [cells]; now rewrite !length_map.
Qed.

Lemma len_apply_str (f : string -> string) (s : Series) : len (apply_str f s) = len s.
Proof.
  unfold len. destruct s as [l|l|l|l|l]; cbn [apply_str cells]; try reflexivity.
  now rewrite !length_map.
Qed.

Lemma length_assign_where (mask : list bool) (v : Scalar) (l : list Scalar) :
  List.length (assign_where mask v l) = List.length l.
Proof.
  revert mask. induction l as [|x l IH]; intros [|m mask]; simpl; try reflexivity.
  now rewrite IH.
Qed.

Lemma len_loc_assign (mask : list bool) (v : string) (s : Series) :
  len (loc_assign mask v s) = len s.
Proof.
  unfold len. destruct s as [l|l|l|l|l]; cbn [loc_assign cells]; try reflexivity.
  now rewrite !length_map, length_assign_where.
Qed.

Lemma len_str_extract (s : Series) : len (str_extract s) = len s.
Proof.
  unfold len. destruct s as [l|l|l|l|l]; cbn [str_extract cells]; try reflexivity.
  now rewrite !length_map.
Qed.

Lemma len_to_numeric_float64 (s : Series) : len (to_numeric_float64 s) = len s.
Proof.
  unfold len. destruct s as [l|l|l|l|l]; cbn [to_numeric_float64 cells]; try reflexivity.
  now rewrite !length_map.
Qed.

Lemma len_to_numeric_Int64 (s : Series) : len (to_numeric_Int64 s) = len s.
Proof.
  unfold len. destruct s as [l|l|l|l|l]; cbn [to_numeric_Int64 cells]; try reflexivity.
  now rewrite !length_map, through_float64_length, length_map.
Qed.

Lemma len_fillna_median (s : Series) : len (fillna_median s) = len s.
Proof.
  unfold len. destruct s as [l|l|l|l|l]; cbn [fillna_median cells]; try reflexivity.
  unfold fill_with. now rewrite !length_map.
Qed.

Create Rewrite HintDb len.

#[local] Hint Rewrite len_astype_str len_isnull len_fillna_str len_apply_str
  len_loc_assign len_str_extract len_to_numeric_float64 len_to_numeric_Int64
  len_fillna_median : len.

Lemma lookup_In (n : string) (s : Series) (cs : list (string * Series)) :
  lookup n cs = Some s -> In (n, s) cs.
Proof.
  induction cs as [|[m t] cs IH]; simpl; [discriminate|].
  destruct (String.eqb_spec n m) as [->|_].
  - intros [= ->]. now left.
  - intros H. right. now apply IH.
Qed.

Lemma forallb_store (p : string * Series -> bool) (n : string) (s : Series)
      (cs : list (string * Series)) :
  List.forallb p cs = true -> p (n, s) = true ->
  List.forallb p (store n s cs) = true.
Proof.
  intros H Hs. induction cs as [|[m t] cs IH]; simpl.
  - now rewrite Hs.
  - simpl in H. apply andb_prop in H as [Ht Hc].
    destruct (String.eqb_spec n m) as [<-|_]; simpl.
    + now rewrite Hs, Hc.
    + now rewrite Ht, IH.
Qed.

Lemma aligned_column (n : string) (s : Series) (df : DataFrame) :
  aligned df = true -> getitem n df = Some s -> len s = nrows df.
Proof.
  unfold aligned, getitem. intros H Hs. apply lookup_In in Hs.
  rewrite forallb_forall in H. specialize (H _ Hs). now apply Nat.eqb_eq in H.
Qed.

Lemma aligned_setitem (n : string) (s : Series) (df : DataFrame) :
  aligned df = true -> len s = nrows df -> aligned (setitem n s df) = true.
Proof.
  unfold aligned, setitem. cbn [columns index nrows]. intros H Hs.
  apply (forallb_store (fun c => Nat.eqb (len (snd c)) (nrows df))); [exact H|].
  now apply Nat.eqb_eq.
Qed.

Lemma aligned_on_column (n : string) (f : Series -> Series) (df : DataFrame) :
  (forall s, len (f s) = len s) ->
  aligned df = true -> aligned (on_column n f df) = true.
Proof.
  intros Hf H. rewrite on_column_spec.
  destruct (getitem n df) as [s|] eqn:E; [|exact H].
  apply aligned_setitem; [exact H|]. rewrite Hf. exact (aligned_column _ _ _ H E).
Qed.

Lemma aligned_derive_complaints_missing (df : DataFrame) :
  aligned df = true -> aligned (derive_complaints_missing df) = true.
Proof.
  intros H. unfold derive_complaints_missing.
  destruct (getitem "number_of_open_complaints" df) as [s|] eqn:E; [|exact H].
  apply aligned_setitem; [exact H|]. rewrite len_isnull.
  exact (aligned_column _ _ _ H E).
Qed.

Lemma index_derive_complaints_missing (df : DataFrame) :
  index (derive_complaints_missing df) = index df.
Proof.
  unfold derive_complaints_missing.
  now destruct (getitem "number_of_open_complaints" df).
Qed.

Lemma index_clean_column_names (df : DataFrame) :
  index (clean_column_names df) = index df.
Proof. reflexivity. Qed.

Lemma aligned_clean_column_names (df : DataFrame) :
  aligned df = true -> aligned (clean_column_names df) = true.
Proof.
  unfold aligned, clean_column_names, nrows. cbn [columns index].
  rewrite !map_map. intros H. rewrite forallb_forall in *.
  intros c Hc. apply in_map_iff in Hc as (c' & <- & Hc'). exact (H _ Hc').
Qed.

Ltac keep_aligned :=
  repeat (apply aligned_on_column;
          [intros; autorewrite with len; try reflexivity|]);
  try assumption.

Lemma stage_keeps_rows (stage : DataFrame -> DataFrame) (df : DataFrame) :
  In stage [clean_column_names; standardize_gender; standardize_state;
            standardize_education; standardize_vehicle_class;
            clean_and_convert_numerical; handle_missing_values] ->
  index (stage df) = index df
  /\ (aligned df = true -> aligned (stage df) = true).
Proof.
  cbn [In]. intros [<-|[<-|[<-|[<-|[<-|[<-|[<-|[]]]]]]]].
  - split; [reflexivity | apply aligned_clean_column_names].
  - unfold standardize_gender. rewrite index_on_column. split; [reflexivity|].
    intros H. keep_aligned.
  - unfold standardize_state, replace_map, str_map. rewrite index_on_column.
    split; [reflexivity|]. intros H. keep_aligned.
  - unfold standardize_education. rewrite index_on_column. split; [reflexivity|].
    intros H. keep_aligned.
  - unfold standardize_vehicle_class. rewrite index_on_column.
    split; [reflexivity|]. intros H. keep_aligned.
  - unfold clean_and_convert_numerical, str_map. rewrite !index_on_column.
    split; [reflexivity|]. intros H. keep_aligned.
  - unfold handle_missing_values, categorical_cols, numerical_cols.
    cbn [fold_left]. rewrite index_derive_complaints_missing, !index_on_column.
    split; [reflexivity|]. intros H.
    apply aligned_derive_complaints_missing. keep_aligned.
    all: destruct (is_numeric_dtype _); autorewrite with len; reflexivity.
Qed.

Lemma length_drop_marked_le {A} (mask : list bool) (l : list A) :
  (List.length (drop_marked mask l) <= List.length l)%nat.
Proof.
  revert mask. induction l as [|x l IH]; intros [|[] mask]; simpl; try lia.
  - specialize (IH mask). lia.
  - specialize (IH mask). lia.
Qed.

Lemma nrows_drop_duplicates (df : DataFrame) :
  (nrows (reset_index (drop_duplicates df)) <= nrows df)%nat.
Proof.
  unfold nrows, reset_index, drop_duplicates. cbn [index].
  rewrite length_map, length_seq.
  destruct (empty df); cbn [index]; [lia | apply length_drop_marked_le].
Qed.

Lemma index_before_duplicates (df : DataFrame) :
  index (before_duplicates df) = index df.
Proof.
  unfold before_duplicates.
  repeat match goal with
         | |- index (?f ?d) = _ =>
             rewrite (proj1 (stage_keeps_rows f d ltac:(cbn [In]; tauto)))
         end.
  reflexivity.
Qed.

(** C10: each of the seven stages before the duplicate remover returns a
    frame with the same row labels in the same order, every column still
    holding one cell per row; the pipeline's output has as many rows as its
    input less the number that the duplicate remover reports. *)
Theorem stages_keep_rows (df : DataFrame) :
  (forall stage,
     In stage [clean_column_names; standardize_gender; standardize_state;
               standardize_education; standardize_vehicle_class;
               clean_and_convert_numerical; handle_missing_values] ->
     index (stage df) = index df
     /\ (aligned df = true -> aligned (stage df) = true))
  /\ exists removed,
       snd (main_cleaning_pipeline df)
       = ["Starting the data cleaning and formatting pipeline...";
          "Number of duplicate rows removed: " ++ Str.of_nat removed;
          "Data cleaning pipeline completed successfully."]
       /\ (nrows (fst (main_cleaning_pipeline df)) + removed = nrows df)%nat.
Proof.
  split; [intros stage; apply stage_keeps_rows|].
  pose proof (nrows_drop_duplicates (before_duplicates df)) as Hle.
  exists (nrows (before_duplicates df)
          - nrows (reset_index (drop_duplicates (before_duplicates df))))%nat.
  rewrite main_cleaning_pipeline_eq. cbn [fst snd].
  split; [reflexivity|].
  assert (E : nrows (before_duplicates df) = nrows df)
    by (unfold nrows; now rewrite index_before_duplicates).
  lia.
Qed.

(** ** The duplicate remover *)

Lemma drop_marked_map {A B} (f : A -> B) (mask : list bool) (l : list A) :
  drop_marked mask (List.map f l) = List.map f (drop_marked mask l).
Proof.
  revert mask. induction l as [|x l IH]; intros [|[] mask]; simpl; try reflexivity.
  - apply IH.
  - now rewrite IH.
Qed.

Lemma drop_marked_In {A} (mask : list bool) (l : list A) (x : A) :
  In x (drop_marked mask l) -> In x l.
Proof.
  revert mask. induction l as [|y l IH]; intros [|[] mask]; simpl; try tauto.
  - intros H. right. exact (IH _ H).
  - intros [H|H]; [now left | right; exact (IH _ H)].
Qed.

Lemma length_drop_marked_same {A B} (mask : list bool) (l : list A) (l' : list B) :
  List.length l = List.length l' ->
  List.length (drop_marked mask l) = List.length (drop_marked mask l').
Proof.
  revert mask l'. induction l as [|x l IH]; intros [|[] mask] [|y l'] H;
    simpl in *; try reflexivity; try discriminate.
  - apply IH. lia.
  - f_equal. apply IH. lia.
Qed.

(** Dropping marked elements is selecting by the positions that stay. *)
Lemma drop_marked_select {A} (d : A) (mask : list bool) (l : list A) :
  drop_marked mask l
  = List.map (fun i => nth i l d) (drop_marked mask (seq 0 (List.length l))).
Proof.
  revert mask. induction l as [|x l IH]; intros [|b mask]; try reflexivity.
  cbn [List.length seq]. rewrite <- seq_shift.
  destruct b; cbn [drop_marked List.map]; rewrite drop_marked_map, map_map;
    cbn [nth]; now rewrite <- IH.
Qed.

Lemma map_nth_positions {A} (d : A) (l : list A) :
  List.map (fun k => nth k l d) (seq 0 (List.length l)) = l.
Proof.
  induction l as [|x l IH]; [reflexivity|].
  cbn [List.length seq List.map nth]. rewrite <- seq_shift, map_map.
  cbn [nth]. now rewrite IH.
Qed.

(** The positions that stay are those of the rows that differ from every row
    before them (and from the rows seen so far). *)
Lemma kept_from_spec (seen rs : list (list Cell)) (i : nat) :
  In i (drop_marked (duplicated_from seen rs) (seq 0 (List.length rs)))
  <-> exists r, nth_error rs i = Some r
                /\ ~ In r seen
                /\ forall j, (j < i)%nat -> nth_error rs j <> Some r.
Proof.
  revert seen i. induction rs as [|r rs IH]; intros seen i.
  - simpl. split; [tauto|]. intros (q & H & _). now destruct i.
  - cbn [List.length seq duplicated_from drop_marked].
    rewrite <- seq_shift, drop_marked_map.
    assert (Hrest : In i (List.map S (drop_marked (duplicated_from (r :: seen) rs)
                                                  (seq 0 (List.length rs))))
                    <-> exists k, i = S k
                                  /\ exists q, nth_error rs k = Some q
                                               /\ ~ In q (r :: seen)
                                               /\ forall j, (j < k)%nat ->
                                                            nth_error rs j <> Some q).
    { rewrite in_map_iff. split.
      - intros (k & <- & Hk). exists k. split; [reflexivity|]. now apply IH.
      - intros (k & -> & Hk). exists k. split; [reflexivity|]. now apply IH. }
    assert (Hgoal : (exists q, nth_error (r :: rs) i = Some q
                               /\ ~ In q seen
                               /\ forall j, (j < i)%nat ->
                                            nth_error (r :: rs) j <> Some q)
                    <-> (i = 0%nat /\ ~ In r seen)
                        \/ exists k, i = S k
                                     /\ exists q, nth_error rs k = Some q
                                                  /\ ~ In q (r :: seen)
                                                  /\ forall j, (j < k)%nat ->
                                                               nth_error rs j <> Some q).
    { destruct i as [|k]; cbn [nth_error].
      - split.
        + intros (q & [= <-] & Hs & _). now left.
        + intros [[_ Hs]|(k & [=] & _)]. exists r. repeat split; [exact Hs|].
          intros j Hj. lia.
      - split.
        + intros (q & Hq & Hs & Hj). right. exists k. split; [reflexivity|].
          exists q. split; [exact Hq|]. split.
          * cbn [In]. intros [->|H]; [|tauto].
            apply (Hj 0%nat); [lia | reflexivity].
          * intros j Hlt. apply (Hj (S j)). lia.
        + intros [[[=] _]|(k' & [= <-] & q & Hq & Hs & Hj)].
          exists q. split; [exact Hq|]. cbn [In] in Hs. split; [tauto|].
          intros [|j] Hlt; cbn [nth_error].
          * intros [= ->]. tauto.
          * apply Hj. lia. }
    rewrite Hgoal, <- Hrest.
    destruct (in_dec row_eq_dec r seen) as [Hin|Hin]; cbn [In].
    + split; [tauto|]. intros [[_ H]|H]; [contradiction | exact H].
    + split.
      * intros [<-|H]; [now left | now right].
      * intros [[-> _]|H]; [now left | now right].
Qed.

Lemma strongly_sorted_seq (a n : nat) : StronglySorted lt (seq a n).
Proof.
  revert a. induction n as [|n IH]; intros a; cbn [seq]; constructor.
  - apply IH.
  - apply Forall_forall. intros x Hx. apply in_seq in Hx. lia.
Qed.

Lemma strongly_sorted_drop_marked {A} (R : A -> A -> Prop) (mask : list bool)
      (l : list A) :
  StronglySorted R l -> StronglySorted R (drop_marked mask l).
Proof.
  intros H. revert mask. induction H as [|x l Hl IH Hx]; intros [|[] mask];
    cbn [drop_marked]; try constructor.
  - apply IH.
  - apply IH.
  - apply Forall_forall. intros y Hy. rewrite Forall_forall in Hx.
    apply Hx. exact (drop_marked_In _ _ _ Hy).
Qed.

Lemma cells_series_drop (mask : list bool) (s : Series) :
  cells (series_drop mask s) = drop_marked mask (cells s).
Proof.
  destruct s; cbn [series_drop cells]; now rewrite drop_marked_map.
Qed.

Lemma nth_error_rows (df : DataFrame) (i : nat) :
  (i < nrows df)%nat -> nth_error (rows df) i = Some (row df i).
Proof.
  intros H. unfold rows. rewrite nth_error_map.
  rewrite (nth_error_nth' _ 0%nat) by (now rewrite length_seq).
  now rewrite seq_nth.
Qed.

Lemma nth_error_rows_none (df : DataFrame) (i : nat) :
  (nrows df <= i)%nat -> nth_error (rows df) i = None.
Proof.
  intros H. apply nth_error_None. unfold rows.
  now rewrite length_map, length_seq.
Qed.

(** On a frame of the embedding the guard of [drop_duplicates] changes
    nothing: an empty frame has no row to drop. *)
Lemma frame_ok_parts (df : DataFrame) :
  frame_ok df = true ->
  distinct (labels df) = true
  /\ aligned df = true
  /\ (columns df = [] -> index df = [])
  /\ List.forallb dtype_ok (columns df) = true.
Proof.
  unfold frame_ok. intros H.
  apply andb_prop in H as [H H4]. apply andb_prop in H as [H H3].
  apply andb_prop in H as [H1 H2].
  repeat split; try assumption.
  intros E. rewrite E in H3. apply Nat.eqb_eq in H3.
  unfold nrows in H3. now destruct (index df).
Qed.

Lemma drop_duplicates_frame (df : DataFrame) :
  frame_ok df = true ->
  drop_duplicates df
  = mkDF (drop_marked (duplicated df) (index df))
         (List.map (fun c => (fst c, series_drop (duplicated df) (snd c)))
                   (columns df)).
Proof.
  intros H. destruct (frame_ok_parts _ H) as (_ & Ha & Hc & _).
  unfold drop_duplicates, empty.
  destruct df as [ix cs]; cbn [index columns] in *.
  destruct ix as [|z ix]; [|destruct cs as [|c cs]; [now specialize (Hc eq_refl)|reflexivity]].
  assert (E : duplicated (mkDF [] cs) = []) by reflexivity. rewrite E.
  f_equal. rewrite <- (map_id cs) at 1. apply map_ext_in. intros [n s] Hs.
  cbn [fst snd]. f_equal.
  unfold aligned in Ha. rewrite forallb_forall in Ha. specialize (Ha _ Hs).
  apply Nat.eqb_eq in Ha. unfold len, nrows in Ha. cbn [snd index List.length] in Ha.
  destruct s as [l|l|l|l|l]; cbn [cells] in Ha; rewrite length_map in Ha;
    destruct l; try discriminate; reflexivity.
Qed.

Lemma rows_drop_duplicates (df : DataFrame) :
  frame_ok df = true ->
  rows (reset_index (drop_duplicates df)) = List.map (row df) (kept_rows df).
Proof.
  intros H. destruct (frame_ok_parts _ H) as (_ & Ha & _ & _).
  rewrite (drop_duplicates_frame _ H).
  unfold rows, reset_index, kept_rows, nrows. cbn [index columns].
  rewrite length_map, length_seq.
  rewrite (length_drop_marked_same _ (index df) (seq 0 (List.length (index df))))
    by (now rewrite length_seq).
  set (K := drop_marked (duplicated df) (seq 0 (List.length (index df)))).
  transitivity (List.map (row df)
                  (List.map (fun k => nth k K 0%nat) (seq 0 (List.length K))));
    [|now rewrite map_nth_positions].
  rewrite map_map.
  apply map_ext_in. intros k Hk. apply in_seq in Hk.
  unfold row. cbn [columns]. rewrite map_map. apply map_ext_in. intros [n s] Hs.
  cbn [snd]. rewrite cells_series_drop.
  unfold aligned in Ha. rewrite forallb_forall in Ha. specialize (Ha _ Hs).
  apply Nat.eqb_eq in Ha. cbn [snd] in Ha. unfold len, nrows in Ha.
  rewrite (drop_marked_select CNaN), Ha. fold K.
  rewrite (nth_indep _ CNaN (nth 0 (cells s) CNaN)) by (rewrite length_map; lia).
  apply (map_nth (fun i => nth i (cells s) CNaN)).
Qed.

(** C7: on a frame of the embedding, the duplicate remover keeps the rows at
    the positions [kept_rows df]: these are exactly the rows that differ in
    some cell from every earlier row, taken in their original order; the
    other rows are deleted, the row labels become 0, 1, 2, ..., and the one
    line printed reports how many rows were deleted. *)
Theorem remove_duplicates_spec (df : DataFrame) :
  frame_ok df = true ->
  (forall i, In i (kept_rows df)
             <-> (i < nrows df)%nat
                 /\ forall j, (j < i)%nat -> row df j <> row df i)
  /\ StronglySorted lt (kept_rows df)
  /\ rows (fst (remove_duplicates df)) = List.map (row df) (kept_rows df)
  /\ labels (fst (remove_duplicates df)) = labels df
  /\ index (fst (remove_duplicates df))
     = List.map Z.of_nat (seq 0 (List.length (kept_rows df)))
  /\ snd (remove_duplicates df)
     = ["Number of duplicate rows removed: "
        ++ Str.of_nat (nrows df - List.length (kept_rows df))].
Proof.
  intros H.
  assert (Hn : nrows (reset_index (drop_duplicates df)) = List.length (kept_rows df)).
  { rewrite (drop_duplicates_frame _ H).
    unfold nrows, reset_index, kept_rows. cbn [index].
    rewrite length_map, length_seq.
    apply length_drop_marked_same. now rewrite length_seq. }
  split; [|split; [|split; [|split; [|split]]]].
  - intros i. unfold kept_rows, duplicated.
    replace (nrows df) with (List.length (rows df))
      by (unfold rows; now rewrite length_map, length_seq).
    rewrite kept_from_spec.
    replace (List.length (rows df)) with (nrows df)
      by (unfold rows; now rewrite length_map, length_seq).
    split.
    + intros (r & Hr & _ & Hj).
      assert (Hi : (i < nrows df)%nat).
      { destruct (Nat.lt_ge_cases i (nrows df)) as [Hlt|Hge]; [exact Hlt|].
        rewrite (nth_error_rows_none _ _ Hge) in Hr. discriminate. }
      split; [exact Hi|]. rewrite (nth_error_rows _ _ Hi) in Hr. injection Hr as <-.
      intros j Hlt E. apply (Hj j Hlt).
      rewrite nth_error_rows by lia. now f_equal.
    + intros (Hi & Hj). exists (row df i).
      split; [now apply nth_error_rows|]. split; [now intros []|].
      intros j Hlt. rewrite nth_error_rows by lia. intros [= E]. exact (Hj j Hlt E).
  - apply strongly_sorted_drop_marked, strongly_sorted_seq.
  - now apply rows_drop_duplicates.
  - apply labels_remove_duplicates.
  - unfold remove_duplicates. cbn [fst].
    unfold nrows, reset_index in Hn. cbn [index] in Hn.
    rewrite length_map, length_seq in Hn.
    unfold reset_index. cbn [index]. now rewrite Hn.
  - unfold remove_duplicates. cbn [snd]. now rewrite Hn.
Qed.

(** ** The frame handed to the duplicate remover *)

Lemma aligned_before_duplicates (df : DataFrame) :
  aligned (clean_column_names df) = true -> aligned (before_duplicates df) = true.
Proof.
  intros H. unfold before_duplicates.
  repeat match goal with
         | |- aligned (?f ?d) = true =>
             lazymatch f with
             | clean_column_names => exact H
             | _ => apply (proj2 (stage_keeps_rows f d ltac:(cbn [In]; tauto)))
             end
         end.
Qed.

Lemma distinct_app_new (n : string) (l : list string) :
  distinct l = true -> existsb (String.eqb n) l = false ->
  distinct (l ++ [n]) = true.
Proof.
  induction l as [|x l IH]; [reflexivity|]. cbn [distinct existsb List.app].
  intros H Hn. apply andb_prop in H as [Hx Hd].
  apply orb_false_elim in Hn as [Hnx Hn].
  rewrite (IH Hd Hn), andb_true_r, existsb_app. cbn [existsb].
  apply negb_true_iff in Hx. rewrite Hx, String.eqb_sym, Hnx. reflexivity.
Qed.

Lemma is_nullable_treatment (n : string) (s : Series) :
  dtype_ok (n, s) = true -> dtype_ok (n, treatment n s) = true.
Proof.
  unfold dtype_ok. cbn [fst snd]. intros H. by_label n;
    rewrite ?treatment_gender, ?treatment_state, ?treatment_education,
      ?treatment_vehicle_class, ?treatment_lifetime_value, ?treatment_complaints,
      ?treatment_customer, ?treatment_policy_type, ?treatment_total_claim_amount,
      ?treatment_monthly_premium_auto, ?treatment_customer_income;
    try reflexivity; try exact H;
    destruct s as [l|l|l|l|l]; try discriminate; try reflexivity;
    cbn [fillna_str]; destruct (has_nan l); reflexivity.
Qed.

Lemma labels_nil (df : DataFrame) : labels df = [] -> columns df = [].
Proof. unfold labels. apply map_eq_nil. Qed.

Lemma columns_nil_labels (df : DataFrame) : columns df = [] -> labels df = [].
Proof. unfold labels. now intros ->. Qed.

Lemma before_duplicates_frame_ok (df : DataFrame) :
  frame_ok (clean_column_names df) = true -> frame_ok (before_duplicates df) = true.
Proof.
  intros H. destruct (frame_ok_parts _ H) as (Hd & Ha & Hc & Ht).
  unfold frame_ok. repeat (apply andb_true_intro; split).
  - rewrite labels_before_duplicates.
    destruct (has_column "number_of_open_complaints" _); cbn [andb];
      [|now rewrite app_nil_r].
    destruct (has_column "complaints_missing" (clean_column_names df)) eqn:E;
      cbn [negb]; [now rewrite app_nil_r|].
    now apply distinct_app_new.
  - now apply aligned_before_duplicates.
  - destruct (columns (before_duplicates df)) as [|c cs] eqn:E; [|reflexivity].
    apply columns_nil_labels in E. rewrite labels_before_duplicates in E.
    apply app_eq_nil in E as [L _]. apply labels_nil in L.
    apply Nat.eqb_eq. unfold nrows. rewrite index_before_duplicates.
    specialize (Hc L). cbn [clean_column_names index] in Hc. now rewrite Hc.
  - rewrite (before_duplicates_columns _ Hd).
    assert (Hx : List.forallb dtype_ok
                   (columns (map_columns treatment (clean_column_names df))) = true).
    { unfold map_columns. cbn [columns]. rewrite forallb_forall in *.
      intros c Hin. apply in_map_iff in Hin as ([n s] & <- & Hin).
      cbn [fst snd]. apply is_nullable_treatment. exact (Ht _ Hin). }
    unfold derive_complaints_missing.
    destruct (getitem _ _); [|exact Hx].
    unfold setitem. cbn [columns]. now apply forallb_store.
Qed.

Lemma getitem_map_columns (g : string -> Series -> Series) (n : string)
      (df : DataFrame) :
  getitem n (map_columns g df) = option_map (g n) (getitem n df).
Proof.
  unfold getitem, map_columns. cbn [columns].
  induction (columns df) as [|[m t] cs IH]; [reflexivity|].
  cbn [List.map lookup fst snd].
  destruct (String.eqb_spec n m) as [->|_]; [reflexivity | exact IH].
Qed.

Lemma getitem_derive_other (n : string) (df : DataFrame) :
  n <> "complaints_missing" ->
  getitem n (derive_complaints_missing df) = getitem n df.
Proof.
  intros H. unfold derive_complaints_missing.
  destruct (getitem "number_of_open_complaints" df); [|reflexivity].
  now apply getitem_setitem_other.
Qed.

Lemma lookup_map_snd (f : Series -> Series) (n : string)
      (cs : list (string * Series)) :
  lookup n (List.map (fun c => (fst c, f (snd c))) cs) = option_map f (lookup n cs).
Proof.
  induction cs as [|[m t] cs IH]; [reflexivity|].
  cbn [List.map lookup fst snd]. now destruct (String.eqb n m).
Qed.

Lemma getitem_pipeline (df : DataFrame) (n : string) :
  frame_ok (clean_column_names df) = true ->
  getitem n (fst (main_cleaning_pipeline df))
  = option_map (series_drop (duplicated (before_duplicates df)))
               (getitem n (before_duplicates df)).
Proof.
  intros H. rewrite main_cleaning_pipeline_eq. cbn [fst].
  rewrite (drop_duplicates_frame _ (before_duplicates_frame_ok _ H)).
  unfold getitem, reset_index. cbn [columns]. apply lookup_map_snd.
Qed.

(** ** Missing categorical cells *)

Lemma categorical_before_duplicates (df : DataFrame) (col : string) (s : Series) :
  frame_ok (clean_column_names df) = true ->
  In col ["gender"; "state"; "education"; "vehicle_class"] ->
  getitem col (clean_column_names df) = Some s ->
  exists g,
    getitem col (before_duplicates df) = Some (string_column g s)
    /\ g "nan" = if String.eqb col "state" then "NAN" else "nan".
Proof.
  intros H Hcol Hs. destruct (frame_ok_parts _ H) as (Hd & Ha & _ & _).
  rewrite (before_duplicates_columns _ Hd).
  cbn [In] in Hcol. destruct Hcol as [<-|[<-|[<-|[<-|[]]]]];
    rewrite getitem_derive_other by discriminate;
    rewrite getitem_map_columns, Hs; cbn [option_map].
  - exists gender_value. now rewrite treatment_gender.
  - exists state_value. now rewrite treatment_state.
  - exists education_value. now rewrite treatment_education.
  - exists vehicle_class_value. now rewrite treatment_vehicle_class.
Qed.

Lemma kept_rows_eq (df : DataFrame) :
  kept_rows df = drop_marked (duplicated df) (seq 0 (List.length (index df))).
Proof. reflexivity. Qed.

Lemma nth_error_kept {A} (d : A) (mask : list bool) (l : list A) (k i : nat) (x : A) :
  nth_error (drop_marked mask (seq 0 (List.length l))) k = Some i ->
  nth_error l i = Some x ->
  nth_error (drop_marked mask l) k = Some x.
Proof.
  intros Hk Hi. rewrite (drop_marked_select d), nth_error_map, Hk.
  cbn [option_map]. f_equal. now apply nth_error_nth.
Qed.

(** C9: on a frame of the embedding, when a cell of the gender, state,
    education or vehicle_class column of the input is NaN, the frame handed to the duplicate remover holds the
    string "nan" in that cell ("NAN" for state), and so does the pipeline's
    output in the row that comes from it; the cell is never "Unknown". *)
Theorem missing_categorical_becomes_nan (df : DataFrame) (col : string) (s : Series) :
  frame_ok (clean_column_names df) = true ->
  In col ["gender"; "state"; "education"; "vehicle_class"] ->
  getitem col (clean_column_names df) = Some s ->
  exists mid out,
    getitem col (before_duplicates df) = Some (ObjectS mid)
    /\ getitem col (fst (main_cleaning_pipeline df)) = Some (ObjectS out)
    /\ (forall i,
          nth_error (cells s) i = Some CNaN ->
          nth_error mid i
          = Some (SStr (if String.eqb col "state" then "NAN" else "nan")))
    /\ (forall k i,
          nth_error (kept_rows (before_duplicates df)) k = Some i ->
          nth_error (cells s) i = Some CNaN ->
          nth_error out k
          = Some (SStr (if String.eqb col "state" then "NAN" else "nan"))).
Proof.
  intros H Hcol Hs. destruct (frame_ok_parts _ H) as (Hd & Ha & _ & _).
  destruct (categorical_before_duplicates _ _ _ H Hcol Hs) as (g & Hmid & Hg).
  unfold string_column in Hmid.
  assert (Hcell : forall i, nth_error (cells s) i = Some CNaN ->
                            nth_error (List.map (fun c => SStr (g (cell_str c))) (cells s)) i
                            = Some (SStr (if String.eqb col "state" then "NAN" else "nan"))).
  { intros i Hi. rewrite nth_error_map, Hi. cbn [option_map cell_str].
    now rewrite Hg. }
  exists (List.map (fun c => SStr (g (cell_str c))) (cells s)),
    (drop_marked (duplicated (before_duplicates df))
                 (List.map (fun c => SStr (g (cell_str c))) (cells s))).
  split; [exact Hmid|]. split; [|split; [exact Hcell|]].
  - rewrite (getitem_pipeline _ _ H), Hmid. cbn [option_map series_drop].
    reflexivity.
  - intros k i Hk Hi. rewrite kept_rows_eq, index_before_duplicates in Hk.
    pose proof (aligned_column _ _ _ Ha Hs) as E. unfold len, nrows in E.
    rewrite index_clean_column_names in E.
    apply (nth_error_kept (SStr "") _ _ k i); [|exact (Hcell i Hi)].
    rewrite length_map, E. exact Hk.
Qed.

(** ** A second pass over cleaned columns *)

Lemma map_fixed {A} (f : A -> A) (l : list A) :
  (forall x, In x l -> f x = x) -> List.map f l = l.
Proof.
  intros H. induction l as [|x l IH]; [reflexivity|]. cbn [List.map].
  rewrite H by now left. f_equal. apply IH. intros y Hy. apply H. now right.
Qed.

Lemma upper_idem (x : string) : Str.upper (Str.upper x) = Str.upper x.
Proof.
  unfold Str.upper. rewrite map_map_string.
  induction x as [|c x IH]; [reflexivity|]. cbn [Str.map]. rewrite IH. f_equal.
  destruct c as [[] [] [] [] [] [] [] []]; reflexivity.
Qed.

Lemma assoc_In (k v : string) (m : list (string * string)) :
  assoc k m = Some v -> exists k', In (k', v) m.
Proof.
  induction m as [|[k' v'] m IH]; simpl; [discriminate|].
  destruct (String.eqb k k').
  - intros [= ->]. exists k'. now left.
  - intros H. destruct (IH H) as (k2 & H2). exists k2. now right.
Qed.

Lemma state_names_fixed :
  List.forallb (fun kv => String.eqb (state_value (snd kv)) (snd kv)) state_mapping
  = true.
Proof. vm_compute. reflexivity. Qed.

Lemma state_value_idem (x : string) : state_value (state_value x) = state_value x.
Proof.
  destruct (assoc (Str.upper x) state_mapping) as [v|] eqn:E.
  - assert (Ex : state_value x = v) by (unfold state_value; now rewrite E).
    rewrite Ex. destruct (assoc_In _ _ _ E) as (k & Hk).
    pose proof state_names_fixed as H. rewrite forallb_forall in H.
    specialize (H _ Hk). cbn [snd] in H. now apply String.eqb_eq in H.
  - assert (Ex : state_value x = Str.upper x) by (unfold state_value; now rewrite E).
    rewrite Ex. unfold state_value. now rewrite upper_idem, E.
Qed.

Lemma gender_value_idem (x : string) : gender_value (gender_value x) = gender_value x.
Proof.
  destruct (Str.startswith "F" (Str.upper (Str.strip x))) eqn:E1.
  { assert (Ex : gender_value x = "F") by (unfold gender_value; now rewrite E1).
    now rewrite Ex. }
  destruct (Str.startswith "M" (Str.upper (Str.strip x))) eqn:E2.
  { assert (Ex : gender_value x = "M") by (unfold gender_value; now rewrite E1, E2).
    now rewrite Ex. }
  assert (Ex : gender_value x = x) by (unfold gender_value; now rewrite E1, E2).
  now rewrite !Ex.
Qed.

Lemma education_value_idem (x : string) :
  education_value (education_value x) = education_value x.
Proof.
  destruct (Str.starts_in ["B"; "b"]%char x) eqn:E.
  - assert (Ex : education_value x = "Bachelor")
      by (unfold education_value; now rewrite E).
    now rewrite Ex.
  - assert (Ex : education_value x = x) by (unfold education_value; now rewrite E).
    now rewrite !Ex.
Qed.

Lemma vehicle_class_value_idem (x : string) :
  vehicle_class_value (vehicle_class_value x) = vehicle_class_value x.
Proof.
  destruct (Str.starts_in ["L"; "u"]%char x) eqn:E1.
  { assert (Ex : vehicle_class_value x = "Luxury")
      by (unfold vehicle_class_value; now rewrite E1).
    now rewrite Ex. }
  destruct (Str.search_word "Sports" false x) eqn:E2.
  { assert (Ex : vehicle_class_value x = "Luxury")
      by (unfold vehicle_class_value; now rewrite E1, E2).
    now rewrite Ex. }
  assert (Ex : vehicle_class_value x = x)
    by (unfold vehicle_class_value; now rewrite E1, E2).
  now rewrite !Ex.
Qed.













(** *** Labels on a second pass *)

Lemma normalize_clean (n : string) : label_clean n = true -> normalize_label n = n.
Proof.
  unfold label_clean, normalize_label, Str.replace_char, Str.lower.
  rewrite map_map_string. induction n as [|c n IH]; [reflexivity|].
  cbn [Str.forallb Str.map]. intros H. apply andb_prop in H as [Hc Hn].
  rewrite (IH Hn). f_equal. clear - Hc.
  destruct c as [[] [] [] [] [] [] [] []]; try reflexivity; discriminate.
Qed.

Lemma rename_normalize_fixed (n : string) :
  rename_label (normalize_label (rename_label (normalize_label n)))
  = rename_label (normalize_label n).
Proof.
  pose proof (label_clean_normalize n) as Hc.
  set (m := normalize_label n) in *. unfold rename_label at 2 3.
  destruct (String.eqb m "st") eqn:E1; [reflexivity|].
  destruct (String.eqb m "income") eqn:E2; [reflexivity|].
  rewrite (normalize_clean _ Hc). unfold rename_label. now rewrite E1, E2.
Qed.

Lemma clean_column_names_fixed (df : DataFrame) :
  (forall n, In n (labels df) -> rename_label (normalize_label n) = n) ->
  clean_column_names df = df.
Proof.
  intros H. unfold clean_column_names. rewrite !map_map.
  destruct df as [ix cs]. cbn [index columns labels] in *. f_equal.
  apply map_fixed. intros [n s] Hc. cbn [fst snd]. f_equal.
  apply H. apply in_map_iff. now exists (n, s).
Qed.




Lemma derive_complaints_missing_holds (df : DataFrame) (s : Series) :
  getitem "number_of_open_complaints" (derive_complaints_missing df) = Some s ->
  getitem "complaints_missing" (derive_complaints_missing df) = Some (isnull s).
Proof.
  unfold derive_complaints_missing.
  destruct (getitem "number_of_open_complaints" df) as [t|] eqn:E.
  - rewrite getitem_setitem_other by discriminate. rewrite E. intros [= <-].
    apply getitem_setitem_same.
  - now rewrite E.
Qed.




(** *** Rows on a second pass *)

Lemma kept_nodup (seen rs : list (list Cell)) :
  NoDup (drop_marked (duplicated_from seen rs) rs)
  /\ forall r, In r (drop_marked (duplicated_from seen rs) rs) -> ~ In r seen.
Proof.
  revert seen. induction rs as [|r rs IH]; intros seen.
  - cbn. split; [constructor | intros r []].
  - cbn [duplicated_from drop_marked].
    destruct (IH (r :: seen)) as [Hn Hs].
    destruct (in_dec row_eq_dec r seen) as [Hin|Hin].
    + split; [exact Hn|]. intros q Hq Hq'. apply (Hs q Hq). now right.
    + split.
      * constructor; [|exact Hn]. intros Hr. apply (Hs r Hr). now left.
      * intros q [<-|Hq]; [exact Hin|]. intros Hq'. apply (Hs q Hq). now right.
Qed.

Lemma duplicated_from_nodup (seen rs : list (list Cell)) :
  NoDup rs -> (forall r, In r rs -> ~ In r seen) ->
  duplicated_from seen rs = List.map (fun _ => false) rs.
Proof.
  intros Hn. revert seen. induction Hn as [|r rs Hr Hn IH]; intros seen Hs;
    [reflexivity|].
  cbn [duplicated_from List.map].
  destruct (in_dec row_eq_dec r seen) as [Hin|_].
  - destruct (Hs r (or_introl eq_refl) Hin).
  - f_equal. apply IH. intros q Hq [<-|Hq']; [contradiction|].
    exact (Hs q (or_intror Hq) Hq').
Qed.

Lemma drop_marked_none {A B} (l' : list B) (l : list A) :
  List.length l' = List.length l ->
  drop_marked (List.map (fun _ => false) l') l = l.
Proof.
  revert l'. induction l as [|x l IH]; intros [|y l'] H; try discriminate;
    try reflexivity.
  cbn [List.map drop_marked]. f_equal. apply IH. simpl in H. lia.
Qed.

Lemma series_drop_none {B} (l' : list B) (s : Series) :
  List.length l' = len s -> series_drop (List.map (fun _ => false) l') s = s.
Proof.
  unfold len. intros H.
  destruct s as [l|l|l|l|l]; cbn [cells series_drop] in *;
    rewrite length_map in H; now rewrite (drop_marked_none _ _ H).
Qed.

Lemma length_rows (df : DataFrame) : List.length (rows df) = nrows df.
Proof. unfold rows. now rewrite length_map, length_seq. Qed.

Lemma rows_kept (df : DataFrame) :
  List.map (row df) (kept_rows df) = drop_marked (duplicated df) (rows df).
Proof. unfold kept_rows, rows. now rewrite drop_marked_map. Qed.

Lemma drop_marked_nil {A} (mask : list bool) : drop_marked mask (@nil A) = [].
Proof. now destruct mask. Qed.

Lemma is_nullable_series_drop (mask : list bool) (s : Series) :
  is_nullable (series_drop mask s) = is_nullable s.
Proof. now destruct s. Qed.

Lemma len_series_drop (mask : list bool) (s : Series) (ix : list Z) :
  len s = List.length ix ->
  len (series_drop mask s) = List.length (drop_marked mask ix).
Proof.
  unfold len. rewrite cells_series_drop. apply length_drop_marked_same.
Qed.

Lemma drop_duplicates_frame_ok (df : DataFrame) :
  frame_ok df = true -> frame_ok (reset_index (drop_duplicates df)) = true.
Proof.
  intros H. destruct (frame_ok_parts _ H) as (Hd & Ha & Hc & Ht).
  rewrite (drop_duplicates_frame _ H).
  generalize (duplicated df). intros mask.
  unfold frame_ok, reset_index, labels, aligned, nrows. cbn [index columns].
  rewrite length_map, length_seq, map_map. cbn [fst].
  repeat (apply andb_true_intro; split).
  - exact Hd.
  - unfold aligned in Ha. rewrite forallb_forall in *. intros c Hin.
    apply in_map_iff in Hin as ([n s] & <- & Hin). cbn [snd].
    specialize (Ha _ Hin). apply Nat.eqb_eq in Ha. apply Nat.eqb_eq.
    now apply len_series_drop.
  - destruct (columns df) as [|c cs]; [|reflexivity].
    rewrite (Hc eq_refl), drop_marked_nil. reflexivity.
  - rewrite forallb_forall in *. intros c Hin.
    apply in_map_iff in Hin as ([n s] & <- & Hin).
    specialize (Ht _ Hin). unfold dtype_ok in *. cbn [fst snd] in *.
    now rewrite is_nullable_series_drop.
Qed.

Lemma reset_index_idem (df : DataFrame) :
  reset_index (reset_index df) = reset_index df.
Proof.
  unfold reset_index. cbn [index columns]. now rewrite length_map, length_seq.
Qed.

(** A frame whose rows are pairwise different goes through the duplicate
    remover unchanged, apart from its row labels. *)
Lemma drop_duplicates_nodup (df : DataFrame) :
  frame_ok df = true -> NoDup (rows df) -> drop_duplicates df = df.
Proof.
  intros H Hn. destruct (frame_ok_parts _ H) as (_ & Ha & _ & _).
  rewrite (drop_duplicates_frame _ H). unfold duplicated.
  rewrite (duplicated_from_nodup [] _ Hn) by (intros r _ []).
  rewrite drop_marked_none by apply length_rows.
  destruct df as [ix cs]. cbn [index columns] in *. f_equal.
  apply map_fixed. intros [n s] Hin. cbn [fst snd]. f_equal.
  apply series_drop_none. rewrite length_rows.
  unfold aligned in Ha. rewrite forallb_forall in Ha. specialize (Ha _ Hin).
  apply Nat.eqb_eq in Ha. now symmetry.
Qed.


(** *** What the first pass leaves *)

Lemma before_duplicates_labels_fixed (df : DataFrame) (n : string) :
  In n (labels (before_duplicates df)) -> rename_label (normalize_label n) = n.
Proof.
  rewrite labels_before_duplicates, labels_clean_column_names. intros H.
  apply in_app_or in H as [H|H].
  - apply in_map_iff in H as (m & <- & _). apply rename_normalize_fixed.
  - destruct (_ && _); [|contradiction]. destruct H as [<-|[]]. reflexivity.
Qed.


Lemma before_duplicates_complaints_missing (df : DataFrame) (s : Series) :
  distinct (labels (clean_column_names df)) = true ->
  getitem "number_of_open_complaints" (before_duplicates df) = Some s ->
  getitem "complaints_missing" (before_duplicates df) = Some (isnull s).
Proof.
  intros Hd. rewrite (before_duplicates_columns _ Hd).
  apply derive_complaints_missing_holds.
Qed.

(** *** The second pass *)

Section SecondPass.

Variable B : DataFrame.

Hypothesis B_ok : frame_ok B = true.
Hypothesis B_labels :
  forall n, In n (labels B) -> rename_label (normalize_label n) = n.
Hypothesis B_treated :
  forall c, In c (columns B) ->
            fst c = "complaints_missing" \/ exists s, snd c = treatment (fst c) s.
Hypothesis B_complaints_missing :
  forall s, getitem "number_of_open_complaints" B = Some s ->
            getitem "complaints_missing" B = Some (isnull s).

Let out : DataFrame := reset_index (drop_duplicates B).

Hypothesis out_complaints : all_missing_at "number_of_open_complaints" out = true.
Hypothesis out_lifetime_value : all_read_back_at "customer_lifetime_value" out = true.

Lemma out_eq :
  out = mkDF (List.map Z.of_nat (seq 0 (List.length (drop_marked (duplicated B) (index B)))))
             (List.map (fun c => (fst c, series_drop (duplicated B) (snd c)))
                       (columns B)).
Proof. unfold out. now rewrite (drop_duplicates_frame _ B_ok). Qed.


Lemma out_labels : labels out = labels B.
Proof.
  rewrite out_eq. unfold labels. cbn [columns]. now rewrite map_map.
Qed.


Lemma out_clean : clean_column_names out = out.
Proof.
  apply clean_column_names_fixed. rewrite out_labels. exact B_labels.
Qed.







End SecondPass.


Lemma has_column_eq (n : string) (df : DataFrame) :
  has_column n df = existsb (String.eqb n) (labels df).
Proof. reflexivity. Qed.

Lemma no_complaints_column (df : DataFrame) :
  has_column "number_of_open_complaints" (clean_column_names df) = false ->
  all_missing_at "number_of_open_complaints" (fst (main_cleaning_pipeline df)) = true.
Proof.
  intros Hn. unfold all_missing_at.
  destruct (getitem _ (fst _)) as [s|] eqn:E; [exfalso|reflexivity].
  assert (Hh : has_column "number_of_open_complaints" (fst (main_cleaning_pipeline df))
               = true) by (now rewrite has_column_lookup, E).
  rewrite has_column_eq, main_cleaning_pipeline_frame, labels_remove_duplicates,
    labels_before_duplicates, existsb_app, <- has_column_eq, Hn in Hh.
  discriminate.
Qed.

(** ** Further properties of the stages *)

(** *** The state standardizer *)

Lemma assoc_In_key (k v : string) (m : list (string * string)) :
  assoc k m = Some v -> In (k, v) m.
Proof.
  induction m as [|[k' v'] m IH]; simpl; [discriminate|].
  destruct (String.eqb_spec k k') as [<-|_].
  - intros [= ->]. now left.
  - intros H. right. now apply IH.
Qed.

Lemma In_assoc (k v : string) (m : list (string * string)) :
  distinct (List.map fst m) = true -> In (k, v) m -> assoc k m = Some v.
Proof.
  induction m as [|[k' v'] m IH]; [intros _ []|].
  cbn [List.map fst distinct assoc In]. intros H Hin.
  apply andb_prop in H as [Hk Hd]. apply negb_true_iff in Hk.
  destruct Hin as [[= -> ->]|Hin].
  - now rewrite String.eqb_refl.
  - destruct (String.eqb_spec k k') as [->|_]; [|now apply IH].
    exfalso.
    assert (E : existsb (String.eqb k') (List.map fst m) = true).
    { apply existsb_exists. exists k'. split; [|apply String.eqb_refl].
      apply in_map_iff. now exists (k', v). }
    congruence.
Qed.

Lemma state_codes_distinct : distinct (List.map fst state_mapping) = true.
Proof. vm_compute. reflexivity. Qed.

(** Each cell of the state column becomes its upper-cased string form, or
    the full name that the table gives for that upper-cased form. *)
Theorem standardize_state_cells (df : DataFrame) (s : Series) :
  getitem "state" df = Some s ->
  exists out,
    getitem "state" (standardize_state df) = Some (ObjectS out)
    /\ List.length out = len s
    /\ forall i c,
         nth_error (cells s) i = Some c ->
         (forall full, In (Str.upper (cell_str c), full) state_mapping ->
                       nth_error out i = Some (SStr full))
         /\ ((forall full, ~ In (Str.upper (cell_str c), full) state_mapping) ->
             nth_error out i = Some (SStr (Str.upper (cell_str c)))).
Proof.
  intros Hs. unfold standardize_state. read_column. rewrite Hs. cbn [option_map].
  rewrite state_column. eexists. split; [reflexivity|].
  split; [apply length_map|].
  intros i c Hc. rewrite nth_error_map, Hc. cbn [option_map]. split.
  - intros full Hin. now rewrite (In_assoc _ _ _ state_codes_distinct Hin).
  - intros Hno. destruct (assoc _ state_mapping) as [v|] eqn:E; [|reflexivity].
    apply assoc_In_key in E. now destruct (Hno v).
Qed.

Lemma upper_is_upper_case (x : string) : upper_case (Str.upper x) = true.
Proof.
  unfold upper_case, Str.upper. apply forallb_map_string.
  intros c. destruct c as [[] [] [] [] [] [] [] []]; reflexivity.
Qed.

Lemma state_names_resolved :
  List.forallb (fun kv => upper_case (snd kv)
                          && match assoc (snd kv) state_mapping with
                             | None => true
                             | Some _ => false
                             end) state_mapping = true.
Proof. vm_compute. reflexivity. Qed.

Lemma state_value_resolved (x : string) :
  upper_case (state_value x) = true /\ assoc (state_value x) state_mapping = None.
Proof.
  unfold state_value.
  destruct (assoc (Str.upper x) state_mapping) as [v|] eqn:E.
  - apply assoc_In_key in E. pose proof state_names_resolved as H.
    rewrite forallb_forall in H. specialize (H _ E). cbn [snd] in H.
    apply andb_prop in H as [H1 H2]. split; [exact H1|].
    now destruct (assoc v state_mapping).
  - split; [apply upper_is_upper_case | exact E].
Qed.

(** No cell of the standardized state column holds a lower-case letter, and
    none is a code that the table could still expand. *)
Theorem standardize_state_resolved (df : DataFrame) (s : Series) :
  getitem "state" df = Some s ->
  exists out,
    getitem "state" (standardize_state df) = Some (ObjectS out)
    /\ forall x, In x out ->
         exists t, x = SStr t
                   /\ upper_case t = true
                   /\ forall full, ~ In (t, full) state_mapping.
Proof.
  intros Hs. unfold standardize_state. read_column. rewrite Hs. cbn [option_map].
  rewrite state_column. eexists. split; [reflexivity|].
  intros x Hx. apply in_map_iff in Hx as (c & <- & _).
  destruct (state_value_resolved (cell_str c)) as [Hu Hn].
  exists (state_value (cell_str c)). split; [reflexivity|]. split; [exact Hu|].
  intros full Hin.
  rewrite (In_assoc _ _ _ state_codes_distinct Hin) in Hn. discriminate.
Qed.

(** *** The education standardizer *)

(** A cell of the education column whose string form starts with B or b
    becomes "Bachelor"; any other cell becomes its string form, as it is. *)
Theorem standardize_education_cells (df : DataFrame) (s : Series) :
  getitem "education" df = Some s ->
  exists out,
    getitem "education" (standardize_education df) = Some (ObjectS out)
    /\ List.length out = len s
    /\ forall i c,
         nth_error (cells s) i = Some c ->
         (forall a rest, cell_str c = String a rest -> a = "B"%char \/ a = "b"%char ->
                         nth_error out i = Some (SStr "Bachelor"))
         /\ ((forall rest, cell_str c <> String "B" rest
                           /\ cell_str c <> String "b" rest) ->
             nth_error out i = Some (SStr (cell_str c))).
Proof.
  intros Hs. unfold standardize_education. read_column. rewrite Hs.
  cbn [option_map]. cbv zeta. rewrite education_column.
  eexists. split; [reflexivity|]. split; [apply length_map|].
  intros i c Hc. rewrite nth_error_map, Hc. cbn [option_map].
  unfold education_value. split.
  - intros a rest -> [->| ->]; reflexivity.
  - intros Hno. destruct (cell_str c) as [|a rest] eqn:E; [reflexivity|].
    cbn [Str.starts_in existsb]. destruct (Hno rest) as [HB Hb].
    destruct (Ascii.eqb_spec a "B") as [->|_]; [congruence|].
    destruct (Ascii.eqb_spec a "b") as [->|_]; [congruence|]. reflexivity.
Qed.

(** *** customer_lifetime_value *)

Lemma rstrip_pct_run (k : nat) : Str.rstrip_pct (pct_run k) = "".
Proof.
  unfold Str.rstrip_pct. induction k as [|k IH]; [reflexivity|].
  cbn [pct_run Str.rstrip]. now rewrite IH.
Qed.

Lemma rstrip_pct_app (p : string) (k : nat) :
  ends_with "%" p = false -> Str.rstrip_pct (p ++ pct_run k) = p.
Proof.
  induction p as [|a p IH]; intros H.
  - apply rstrip_pct_run.
  - unfold Str.rstrip_pct in *. cbn [append Str.rstrip].
    destruct p as [|b p].
    + cbn [append]. fold Str.rstrip_pct. rewrite rstrip_pct_run.
      cbn [ends_with] in H. rewrite Ascii.eqb_sym. now rewrite H.
    + rewrite IH by exact H. reflexivity.
Qed.

Lemma rstrip_pct_split (t : string) :
  exists k, t = Str.rstrip_pct t ++ pct_run k
            /\ ends_with "%" (Str.rstrip_pct t) = false.
Proof.
  unfold Str.rstrip_pct. induction t as [|a t (k & Ek & Hk)].
  - exists 0%nat. now split.
  - cbn [Str.rstrip]. destruct (Str.rstrip (Ascii.eqb "%") t) as [|b r] eqn:E.
    + cbn [append] in Ek. destruct (Ascii.eqb_spec "%"%char a) as [<-|Hne].
      * exists (S k). cbn [append pct_run]. split; [now rewrite <- Ek | reflexivity].
      * exists k. cbn [append ends_with]. split; [now rewrite <- Ek|].
        apply Ascii.eqb_neq. congruence.
    + exists k. split; [cbn [append]; f_equal; exact Ek | exact Hk].
Qed.

(** Whatever the customer_lifetime_value column holds, the numeric cleaner
    makes it a float64 column: each cell is what the number parser reads in
    its string form once every trailing percent sign is taken off. *)
Theorem lifetime_value_cleaned (df : DataFrame) (s : Series) :
  getitem "customer_lifetime_value" df = Some s ->
  exists out,
    getitem "customer_lifetime_value" (clean_and_convert_numerical df)
    = Some (Float64S out)
    /\ List.length out = len s
    /\ forall i c,
         nth_error (cells s) i = Some c ->
         (exists p k, cell_str c = p ++ pct_run k /\ ends_with "%" p = false)
         /\ forall p k,
              cell_str c = p ++ pct_run k -> ends_with "%" p = false ->
              nth_error out i = Some (parse_float p).
Proof.
  intros Hs. unfold clean_and_convert_numerical. read_column. rewrite Hs.
  cbn [option_map]. rewrite lifetime_value_column.
  eexists. split; [reflexivity|].
  split; [unfold lifetime_value_parsed; apply length_map|].
  intros i c Hc. split.
  - destruct (rstrip_pct_split (cell_str c)) as (k & Ek & Hk).
    now exists (Str.rstrip_pct (cell_str c)), k.
  - intros p k E Hp. unfold lifetime_value_parsed.
    rewrite nth_error_map, Hc. cbn [option_map].
    now rewrite E, (rstrip_pct_app _ _ Hp).
Qed.

(** *** number_of_open_complaints *)

Lemma extract_skip (pre rest : string) :
  no_slash pre = true ->
  Str.extract_slash_digits (pre ++ rest) = Str.extract_slash_digits rest.
Proof.
  unfold no_slash. induction pre as [|c pre IH]; [reflexivity|].
  cbn [Str.forallb append]. intros H. apply andb_prop in H as [Hc Hp].
  cbn [Str.extract_slash_digits Str.match_here].
  apply negb_true_iff in Hc. rewrite Hc. now apply IH.
Qed.

Lemma extract_no_slash (s : string) :
  no_slash s = true -> Str.extract_slash_digits s = None.
Proof.
  intros H. pose proof (extract_skip s "" H) as E.
  assert (Es : s ++ "" = s) by (clear; induction s as [|c s IH]; simpl; congruence).
  now rewrite Es in E.
Qed.

Lemma forallb_string_impl (p q : ascii -> bool) (s : string) :
  (forall c, p c = true -> q c = true) ->
  Str.forallb p s = true -> Str.forallb q s = true.
Proof.
  intros Hpq. induction s as [|c s IH]; [reflexivity|]. cbn [Str.forallb].
  intros H. apply andb_prop in H as [Hc Hs]. now rewrite (Hpq _ Hc), IH.
Qed.

Lemma uint_digits (d : Decimal.uint) :
  Str.forallb Str.is_digit (NilEmpty.string_of_uint d) = true.
Proof. induction d; cbn [NilEmpty.string_of_uint Str.forallb]; now rewrite ?IHd. Qed.

Lemma digits_no_slash (s : string) :
  Str.forallb Str.is_digit s = true -> no_slash s = true.
Proof.
  apply forallb_string_impl. intros c.
  destruct c as [[] [] [] [] [] [] [] []]; try reflexivity; discriminate.
Qed.

Lemma nil_zero_digits (d : Decimal.uint) :
  Str.forallb Str.is_digit (NilZero.string_of_uint d) = true
  /\ NilZero.string_of_uint d <> "".
Proof.
  destruct d; try (split; [reflexivity | discriminate]);
    (split; [apply (uint_digits (_ d)) | discriminate]).
Qed.

Lemma of_Z_no_slash (z : Z) : no_slash (Str.of_Z z) = true.
Proof.
  unfold Str.of_Z. destruct (Z.to_int z) as [d|d]; cbn [NilZero.string_of_int].
  - apply digits_no_slash, nil_zero_digits.
  - unfold no_slash. cbn [Str.forallb]. apply (digits_no_slash _), nil_zero_digits.
Qed.

Lemma digits_value_of_uint (d : Decimal.uint) (acc : nat) :
  Str.digits_value (Z.of_nat acc) (NilEmpty.string_of_uint d)
  = Z.of_nat (Nat.of_uint_acc d acc).
Proof.
  revert acc. induction d; intros acc;
    cbn [NilEmpty.string_of_uint Str.digits_value Nat.of_uint_acc];
    [reflexivity|..];
    rewrite <- IHd; f_equal; rewrite Nat.tail_mul_spec;
    unfold Str.code; cbn [nat_of_ascii]; vm_compute Z.of_nat at 2; lia.
Qed.

Lemma digits_value_of_nat (n : nat) :
  Str.digits_value 0 (Str.of_nat n) = Z.of_nat n.
Proof.
  unfold Str.of_nat. rewrite <- (DecimalNat.Unsigned.of_to n) at 2.
  unfold Nat.of_uint. destruct (Nat.to_uint n) eqn:E; try reflexivity;
    cbn [NilZero.string_of_uint]; apply (digits_value_of_uint _ 0).
Qed.

(** A number_of_open_complaints column that already holds integers (or
    booleans) is emptied by the numeric cleaner: the string form of an
    integer has no slash, so every cell becomes the missing marker. *)
Theorem complaints_integers_wiped (df : DataFrame) (s : Series) :
  getitem "number_of_open_complaints" df = Some s ->
  (exists l, s = Int64S l) \/ (exists l, s = NullableIntS l) \/ (exists l, s = BoolS l) ->
  exists out,
    getitem "number_of_open_complaints" (clean_and_convert_numerical df)
    = Some (NullableIntS out)
    /\ List.length out = len s
    /\ forall o, In o out -> o = None.
Proof.
  intros Hs Hd. unfold clean_and_convert_numerical. read_column. rewrite Hs.
  cbn [option_map]. rewrite complaints_column.
  eexists. split; [reflexivity|].
  split; [unfold complaints_parsed, complaints_read;
          rewrite through_float64_length; apply length_map|].
  intros o Ho. apply (through_float64_all_missing (complaints_read s)); [|exact Ho].
  clear o Ho. intros o Ho. apply in_map_iff in Ho as (c & <- & Hc).
  rewrite extract_no_slash; [reflexivity|].
  destruct Hd as [(l & ->)|[(l & ->)|(l & ->)]]; cbn [cells] in Hc;
    apply in_map_iff in Hc as (x & <- & _).
  - apply of_Z_no_slash.
  - destruct x; [apply of_Z_no_slash | reflexivity].
  - now destruct x.
Qed.

(** No cell of the cleaned number_of_open_complaints column is negative. *)
Theorem complaints_not_negative (df : DataFrame) (s : Series) :
  getitem "number_of_open_complaints" df = Some s ->
  exists out,
    getitem "number_of_open_complaints" (clean_and_convert_numerical df)
    = Some (NullableIntS out)
    /\ forall z, In (Some z) out -> (0 <= z)%Z.
Proof.
  intros Hs. unfold clean_and_convert_numerical. read_column. rewrite Hs.
  cbn [option_map]. rewrite complaints_column.
  eexists. split; [reflexivity|].
  intros z Hz.
  assert (Hread : forall y, In (Some y) (complaints_read s) -> (0 <= y)%Z).
  { intros y Hy. apply in_map_iff in Hy as (c & Hc & _).
    destruct (Str.extract_slash_digits (cell_str c)); [|discriminate].
    injection Hc as <-. now apply digits_value_nonneg. }
  apply through_float64_In in Hz as ([y|] & Hy & [E|E]); try discriminate;
    injection E as ->; [|apply float64_nearest_nonneg]; now apply Hread.
Qed.

(** In a column whose captured runs have at most 15 digits each, a count
    [n] written in decimal between two slashes is read back as [n], whatever
    text without a slash comes before and whatever text comes after. *)
Theorem complaints_decimal_read_back (df : DataFrame) (s : Series) (i n : nat)
        (pre post : string) :
  getitem "number_of_open_complaints" df = Some s ->
  runs_within 15 s = true ->
  nth_error (cells s) i
  = Some (CStr (pre ++ String "/" (Str.of_nat n ++ String "/" post))) ->
  no_slash pre = true ->
  exists out,
    getitem "number_of_open_complaints" (clean_and_convert_numerical df)
    = Some (NullableIntS out)
    /\ nth_error out i = Some (Some (Z.of_nat n)).
Proof.
  intros Hs Hruns Hc Hpre. unfold clean_and_convert_numerical. read_column. rewrite Hs.
  cbn [option_map].
  rewrite complaints_column, (complaints_parsed_within 15 s (Nat.le_refl 15) Hruns).
  unfold complaints_read.
  eexists. split; [reflexivity|].
  rewrite nth_error_map, Hc. cbn [option_map cell_str].
  rewrite (extract_skip _ _ Hpre).
  assert (Hm : Str.match_here (String "/" (Str.of_nat n ++ String "/" post))
               = Some (Str.of_nat n)).
  { apply match_here_complete. unfold Str.of_nat.
    destruct (nil_zero_digits (Nat.to_uint n)) as [Hd Hne].
    split; [exact Hne|]. split; [exact Hd|]. now exists post. }
  cbn [Str.extract_slash_digits]. rewrite Hm. cbn [option_map].
  now rewrite digits_value_of_nat.
Qed.

(** *** Columns that are absent, columns of other stages *)

Lemma getitem_absent (n : string) (df : DataFrame) :
  has_column n df = false -> getitem n df = None.
Proof. rewrite has_column_lookup. now destruct (getitem n df). Qed.

Lemma on_column_absent (n : string) (f : Series -> Series) (df : DataFrame) :
  has_column n df = false -> on_column n f df = df.
Proof. intros H. unfold on_column. now rewrite H. Qed.

(** A stage whose columns are all absent returns the frame as it is. *)
Theorem stage_without_its_columns (df : DataFrame)
        (stage : DataFrame -> DataFrame) (own : list string) :
  In (stage, own) stage_labels ->
  (forall n, In n own -> has_column n df = false) ->
  stage df = df.
Proof.
  unfold stage_labels, categorical_cols, numerical_cols. cbn [In List.app].
  intros [E|[E|[E|[E|[E|[E|[]]]]]]] H; injection E as <- <-.
  all: unfold standardize_gender, standardize_state, standardize_education,
         standardize_vehicle_class, clean_and_convert_numerical,
         handle_missing_values, derive_complaints_missing,
         categorical_cols, numerical_cols;
       cbn [fold_left];
       repeat (rewrite (on_column_absent _ _ df) by (apply H; cbn [In]; tauto));
       try reflexivity.
  rewrite getitem_absent; [reflexivity|]. apply H. cbn [In]. tauto.
Qed.

(** A stage leaves alone every column that is not one of its own (and is
    not complaints_missing), and keeps the row labels. *)
Theorem stage_keeps_other_columns (df : DataFrame)
        (stage : DataFrame -> DataFrame) (own : list string) (n : string) :
  In (stage, own) stage_labels ->
  ~ In n own -> n <> "complaints_missing" ->
  getitem n (stage df) = getitem n df /\ index (stage df) = index df.
Proof.
  unfold stage_labels, categorical_cols, numerical_cols. cbn [In List.app].
  intros [E|[E|[E|[E|[E|[E|[]]]]]]] H Hcm; injection E as <- <-;
    unfold standardize_gender, standardize_state, standardize_education,
      standardize_vehicle_class, clean_and_convert_numerical,
      handle_missing_values, categorical_cols, numerical_cols;
    cbn [fold_left];
    rewrite ?getitem_derive_other by exact Hcm;
    rewrite ?index_derive_complaints_missing, ?index_on_column;
    (split; [|reflexivity]);
    repeat (rewrite getitem_on_column_other
              by (intros ->; apply H; cbn [In]; tauto));
    reflexivity.
Qed.

(** *** The standardizers compose *)

Lemma store_store (n : string) (x y : Series) (cs : list (string * Series)) :
  store n y (store n x cs) = store n y cs.
Proof.
  induction cs as [|[m t] cs IH]; cbn [store].
  - now rewrite String.eqb_refl.
  - destruct (String.eqb n m) eqn:E; cbn [store]; rewrite E; [reflexivity|].
    now rewrite IH.
Qed.

Lemma on_column_idem (n : string) (f : Series -> Series) (df : DataFrame) :
  (forall s, f (f s) = f s) ->
  on_column n f (on_column n f df) = on_column n f df.
Proof.
  intros Hf. rewrite (on_column_spec n f (on_column n f df)).
  rewrite getitem_on_column_same. rewrite on_column_spec.
  destruct (getitem n df) as [s|]; cbn [option_map]; [|reflexivity].
  unfold setitem. cbn [index columns]. now rewrite Hf, store_store.
Qed.

Lemma string_column_idem (g : string -> string) (s : Series) :
  (forall x, g (g x) = g x) ->
  string_column g (string_column g s) = string_column g s.
Proof.
  intros Hg. unfold string_column. cbn [cells]. rewrite !map_map.
  f_equal. apply map_ext. intros c. cbn [scalar_cell cell_str]. now rewrite Hg.
Qed.

(** Each of the four categorical standardizers changes nothing when it is
    run a second time. *)
Theorem standardizer_idempotent (df : DataFrame) (stage : DataFrame -> DataFrame) :
  In stage standardizers -> stage (stage df) = stage df.
Proof.
  unfold standardizers. cbn [In]. intros [<-|[<-|[<-|[<-|[]]]]];
    unfold standardize_gender, standardize_state, standardize_education,
      standardize_vehicle_class;
    apply on_column_idem; intros s; cbv zeta.
  - rewrite !gender_column.
    apply (string_column_idem gender_value), gender_value_idem.
  - rewrite !state_column.
    apply (string_column_idem state_value), state_value_idem.
  - rewrite !education_column.
    apply (string_column_idem education_value), education_value_idem.
  - pose proof vehicle_class_column as E. cbv zeta in E. rewrite !E.
    apply (string_column_idem vehicle_class_value), vehicle_class_value_idem.
Qed.

Lemma store_comm (n m : string) (x y s t : Series) (cs : list (string * Series)) :
  n <> m -> lookup n cs = Some s -> lookup m cs = Some t ->
  store n x (store m y cs) = store m y (store n x cs).
Proof.
  intros Hnm. induction cs as [|[k u] cs IH]; cbn [lookup store]; [discriminate|].
  destruct (String.eqb_spec n k) as [->|Hn]; destruct (String.eqb_spec m k) as [->|Hm];
    try congruence; cbn [store].
  - intros _ _. rewrite String.eqb_refl.
    now apply String.eqb_neq in Hm as ->.
  - intros _ _. rewrite String.eqb_refl.
    now apply String.eqb_neq in Hn as ->.
  - intros Hs Ht. apply String.eqb_neq in Hn as ->. apply String.eqb_neq in Hm as ->.
    now rewrite IH.
Qed.

Lemma on_column_comm (n m : string) (f g : Series -> Series) (df : DataFrame) :
  n <> m ->
  on_column n f (on_column m g df) = on_column m g (on_column n f df).
Proof.
  intros Hnm. rewrite (on_column_spec n f (on_column m g df)),
    (on_column_spec m g (on_column n f df)).
  rewrite getitem_on_column_other by exact Hnm.
  rewrite getitem_on_column_other by congruence.
  rewrite !on_column_spec.
  destruct (getitem n df) as [s|] eqn:En; destruct (getitem m df) as [t|] eqn:Em;
    try reflexivity.
  unfold setitem. cbn [index columns]. f_equal.
  exact (store_comm _ _ _ _ _ _ _ Hnm En Em).
Qed.

(** The four categorical standardizers can be run in any order. *)
Theorem standardizers_commute (df : DataFrame) (f g : DataFrame -> DataFrame) :
  In f standardizers -> In g standardizers -> f (g df) = g (f df).
Proof.
  unfold standardizers. cbn [In].
  intros [<-|[<-|[<-|[<-|[]]]]] [<-|[<-|[<-|[<-|[]]]]]; try reflexivity;
    unfold standardize_gender, standardize_state, standardize_education,
      standardize_vehicle_class;
    apply on_column_comm; discriminate.
Qed.

(** *** Column names *)

(** Normalizing the column names twice is normalizing them once, and the
    normalizer touches nothing but the names. *)
Theorem clean_column_names_idempotent (df : DataFrame) :
  clean_column_names (clean_column_names df) = clean_column_names df
  /\ List.map snd (columns (clean_column_names df)) = List.map snd (columns df)
  /\ index (clean_column_names df) = index df.
Proof.
  split; [|split; [|reflexivity]].
  - apply clean_column_names_fixed. rewrite labels_clean_column_names.
    intros n Hn. apply in_map_iff in Hn as (m & <- & _).
    apply rename_normalize_fixed.
  - unfold clean_column_names. cbn [columns]. now rewrite !map_map.
Qed.

(** *** Gender by its first letter *)

Lemma lstrip_head (p : ascii -> bool) (x : string) (c : ascii) (r : string) :
  Str.lstrip p x = String c r -> p c = false.
Proof.
  induction x as [|a x IH]; cbn [Str.lstrip]; [discriminate|].
  destruct (p a) eqn:E; [exact IH|]. now intros [= <- _].
Qed.

Lemma rstrip_head (p : ascii -> bool) (c : ascii) (r : string) :
  p c = false -> exists r', Str.rstrip p (String c r) = String c r'.
Proof.
  intros H. cbn [Str.rstrip]. destruct (Str.rstrip p r) as [|b r'].
  - rewrite H. now exists "".
  - now exists (String b r').
Qed.

Lemma startswith_char (a b : ascii) (r : string) :
  Str.startswith (String a "") (String b r) = Ascii.eqb a b.
Proof.
  unfold Str.startswith. cbn [prefix].
  destruct (ascii_dec a b) as [->|H].
  - rewrite Ascii.eqb_refl. now destruct r.
  - symmetry. now apply Ascii.eqb_neq.
Qed.

Lemma startswith_strip_upper (a : ascii) (x : string) :
  Str.startswith (String a "") (Str.upper (Str.strip x))
  = match first_nonspace x with
    | Some c => Ascii.eqb a (Str.to_upper c)
    | None => false
    end.
Proof.
  unfold Str.strip, first_nonspace.
  destruct (Str.lstrip Str.is_space x) as [|c r] eqn:E; [reflexivity|].
  destruct (rstrip_head Str.is_space c r (lstrip_head _ _ _ _ E)) as (r' & ->).
  unfold Str.upper. cbn [Str.map]. apply startswith_char.
Qed.

(** The gender standardizer decides on the first character that is not
    white space, whatever its case: F or f gives "F", M or m gives "M", and
    anything else (also an empty or blank string) leaves the string form of
    the cell as it is. *)
Theorem gender_by_first_letter (df : DataFrame) (s : Series) :
  getitem "gender" df = Some s ->
  exists out,
    getitem "gender" (standardize_gender df) = Some (ObjectS out)
    /\ forall i c,
         nth_error (cells s) i = Some c ->
         nth_error out i
         = Some (SStr match first_nonspace (cell_str c) with
                      | Some a =>
                          if Ascii.eqb a "F" || Ascii.eqb a "f" then "F"
                          else if Ascii.eqb a "M" || Ascii.eqb a "m" then "M"
                          else cell_str c
                      | None => cell_str c
                      end).
Proof.
  intros Hs. unfold standardize_gender. read_column. rewrite Hs. cbn [option_map].
  rewrite gender_column. eexists. split; [reflexivity|].
  intros i c Hc. rewrite nth_error_map, Hc. cbn [option_map]. do 2 f_equal.
  unfold gender_value. rewrite !startswith_strip_upper.
  destruct (first_nonspace (cell_str c)) as [a|]; [|reflexivity].
  destruct a as [[] [] [] [] [] [] [] []]; reflexivity.
Qed.

(** *** Vehicle classes *)

Lemma drop_prefix_spec (w s rest : string) :
  Str.drop_prefix w s = Some rest <-> s = w ++ rest.
Proof.
  revert s. induction w as [|a w IH]; intros s; cbn [Str.drop_prefix append].
  - split; [now intros [= ->] | now intros ->].
  - destruct s as [|b s]; [split; discriminate|].
    destruct (Ascii.eqb_spec a b) as [->|Hab].
    + rewrite IH. split; [now intros -> | now intros [= ->]].
    + split; [discriminate | intros [= E _]; congruence].
Qed.

Lemma search_word_spec (w : string) (prev : bool) (s : string) :
  w <> "" ->
  Str.search_word w prev s = true
  <-> exists pre post,
        s = pre ++ w ++ post
        /\ last_is_word prev pre = false
        /\ Str.boundary_here post = true.
Proof.
  intros Hw. revert prev. induction s as [|c s IH]; intros prev.
  - cbn [Str.search_word]. split; [discriminate|].
    intros (pre & post & E & _). destruct pre; [|discriminate].
    destruct w; [congruence | discriminate].
  - cbn [Str.search_word]. rewrite orb_true_iff, andb_true_iff, negb_true_iff, IH.
    split.
    + intros [[Hp Hd]|(pre & post & -> & Hl & Hb)].
      * destruct (Str.drop_prefix w (String c s)) as [rest|] eqn:E; [|discriminate].
        apply drop_prefix_spec in E. exists "", rest. now repeat split.
      * exists (String c pre), post. now repeat split.
    + intros (pre & post & E & Hl & Hb). destruct pre as [|a pre].
      * left. cbn [last_is_word] in Hl. split; [exact Hl|].
        cbn [append] in E. apply drop_prefix_spec in E. now rewrite E.
      * right. cbn [append] in E. injection E as -> ->.
        exists pre, post. now repeat split.
Qed.

(** A cell of the vehicle_class column becomes "Luxury" when its string
    form starts with the capital L or the small u, or holds Sports as a
    whole word; any other cell becomes its string form, as it is. *)
Theorem standardize_vehicle_class_cells (df : DataFrame) (s : Series) :
  getitem "vehicle_class" df = Some s ->
  exists out,
    getitem "vehicle_class" (standardize_vehicle_class df) = Some (ObjectS out)
    /\ List.length out = len s
    /\ forall i c,
         nth_error (cells s) i = Some c ->
         ((exists rest, cell_str c = String "L" rest \/ cell_str c = String "u" rest)
          \/ whole_word_in "Sports" (cell_str c) ->
          nth_error out i = Some (SStr "Luxury"))
         /\ ((forall rest, cell_str c <> String "L" rest
                           /\ cell_str c <> String "u" rest) ->
             ~ whole_word_in "Sports" (cell_str c) ->
             nth_error out i = Some (SStr (cell_str c))).
Proof.
  intros Hs. unfold standardize_vehicle_class. read_column. rewrite Hs.
  cbn [option_map]. cbv beta zeta.
  pose proof (vehicle_class_column s) as E. cbv zeta in E. rewrite E. clear E.
  eexists. split; [reflexivity|]. split; [apply length_map|].
  intros i c Hc. rewrite nth_error_map, Hc. cbn [option_map].
  assert (Hw : forall x, Str.search_word "Sports" false x = true
                         <-> whole_word_in "Sports" x)
    by (intros x; apply search_word_spec; discriminate).
  unfold vehicle_class_value. cbv zeta. split.
  - intros [(rest & [->| ->])|H]; try reflexivity.
    destruct (Str.starts_in _ (cell_str c)); [reflexivity|].
    apply Hw in H. now rewrite H.
  - intros Hno Hnw.
    assert (Es : Str.starts_in ["L"; "u"]%char (cell_str c) = false).
    { destruct (cell_str c) as [|a rest]; [reflexivity|].
      cbn [Str.starts_in existsb]. destruct (Hno rest) as [HL Hu].
      destruct (Ascii.eqb_spec a "L") as [->|_]; [congruence|].
      destruct (Ascii.eqb_spec a "u") as [->|_]; [congruence|]. reflexivity. }
    rewrite Es.
    destruct (Str.search_word "Sports" false (cell_str c)) eqn:Ew; [|reflexivity].
    apply Hw in Ew. contradiction.
Qed.

(** *** More about the duplicate remover *)

Lemma kept_complete (seen rs : list (list Cell)) (r : list Cell) :
  In r rs -> In r seen \/ In r (drop_marked (duplicated_from seen rs) rs).
Proof.
  revert seen. induction rs as [|q rs IH]; intros seen; [intros []|].
  cbn [In duplicated_from drop_marked].
  destruct (in_dec row_eq_dec q seen) as [Hq|Hq].
  - intros [<-|H]; [now left|].
    destruct (IH (q :: seen) H) as [[<-|Hs]|Hk]; [now left | now left | now right].
  - intros [<-|H]; [right; now left|].
    destruct (IH (q :: seen) H) as [[<-|Hs]|Hk];
      [right; now left | now left | right; now right].
Qed.

Lemma rows_after_drop_duplicates (df : DataFrame) :
  frame_ok df = true ->
  rows (reset_index (drop_duplicates df))
  = drop_marked (duplicated_from [] (rows df)) (rows df).
Proof.
  intros H. rewrite (rows_drop_duplicates _ H), rows_kept. reflexivity.
Qed.

Lemma remove_duplicates_nodup (df : DataFrame) :
  frame_ok df = true -> NoDup (rows df) ->
  remove_duplicates df
  = (reset_index df, ["Number of duplicate rows removed: 0"]).
Proof.
  intros H Hn. unfold remove_duplicates.
  rewrite (drop_duplicates_nodup _ H Hn).
  assert (E : nrows (reset_index df) = nrows df)
    by (unfold nrows, reset_index; cbn [index]; now rewrite length_map, length_seq).
  now rewrite E, Nat.sub_diag.
Qed.

(** The rows of the duplicate remover's output are pairwise different, and
    they are the rows of its input: no row content is lost and none is
    made up. *)
Theorem remove_duplicates_distinct_rows (df : DataFrame) :
  frame_ok df = true ->
  NoDup (rows (fst (remove_duplicates df)))
  /\ forall r, In r (rows (fst (remove_duplicates df))) <-> In r (rows df).
Proof.
  intros H. unfold remove_duplicates. cbn [fst].
  rewrite (rows_after_drop_duplicates _ H). split.
  - apply (kept_nodup [] (rows df)).
  - intros r. split.
    + apply drop_marked_In.
    + intros Hr. destruct (kept_complete [] _ _ Hr) as [[]|Hk]. exact Hk.
Qed.

(** When no two rows of the frame are equal, the duplicate remover only
    renumbers the row labels, and reports zero. *)
Theorem remove_duplicates_nothing_to_remove (df : DataFrame) :
  frame_ok df = true -> NoDup (rows df) ->
  remove_duplicates df
  = (reset_index df, ["Number of duplicate rows removed: 0"]).
Proof. exact (remove_duplicates_nodup df). Qed.

(** Running the duplicate remover on its own output changes nothing and
    reports zero. *)
Theorem remove_duplicates_idempotent (df : DataFrame) :
  frame_ok df = true ->
  remove_duplicates (fst (remove_duplicates df))
  = (fst (remove_duplicates df), ["Number of duplicate rows removed: 0"]).
Proof.
  intros H. unfold remove_duplicates at 2 3. cbn [fst].
  rewrite remove_duplicates_nodup.
  - now rewrite reset_index_idem.
  - now apply drop_duplicates_frame_ok.
  - rewrite (rows_after_drop_duplicates _ H). apply (kept_nodup [] (rows df)).
Qed.

(** *** The output of the pipeline *)

(** The pipeline returns a frame of the embedding (distinct labels, one cell
    per row in every column) whose rows are pairwise different. *)
Theorem pipeline_output_well_formed (df : DataFrame) :
  frame_ok (clean_column_names df) = true ->
  frame_ok (fst (main_cleaning_pipeline df)) = true
  /\ NoDup (rows (fst (main_cleaning_pipeline df))).
Proof.
  intros H. pose proof (before_duplicates_frame_ok _ H) as Hb.
  rewrite main_cleaning_pipeline_eq. cbn [fst]. split.
  - now apply drop_duplicates_frame_ok.
  - rewrite (rows_after_drop_duplicates _ Hb).
    apply (kept_nodup [] (rows (before_duplicates df))).
Qed.

Lemma getitem_before_duplicates (df : DataFrame) (n : string) :
  distinct (labels (clean_column_names df)) = true ->
  n <> "complaints_missing" ->
  getitem n (before_duplicates df)
  = option_map (treatment n) (getitem n (clean_column_names df)).
Proof.
  intros Hd Hn. rewrite (before_duplicates_columns _ Hd).
  rewrite getitem_derive_other by exact Hn. apply getitem_map_columns.
Qed.

(** A column that no stage names reaches the output with the cells it had,
    those of the rows that the duplicate remover keeps, in their order. *)
Theorem other_columns_pass_through (df : DataFrame) (n : string) (s : Series) :
  frame_ok (clean_column_names df) = true ->
  ~ In n treated_labels -> n <> "complaints_missing" ->
  getitem n (clean_column_names df) = Some s ->
  exists s',
    getitem n (fst (main_cleaning_pipeline df)) = Some s'
    /\ cells s'
       = List.map (fun i => nth i (cells s) CNaN) (kept_rows (before_duplicates df)).
Proof.
  intros H Hn Hcm Hs. destruct (frame_ok_parts _ H) as (Hd & Ha & _ & _).
  rewrite (getitem_pipeline _ _ H), (getitem_before_duplicates _ _ Hd Hcm), Hs.
  cbn [option_map]. rewrite (treatment_other _ _ Hn).
  eexists. split; [reflexivity|].
  rewrite cells_series_drop, (drop_marked_select CNaN).
  pose proof (aligned_column _ _ _ Ha Hs) as E. unfold len, nrows in E.
  rewrite index_clean_column_names in E.
  now rewrite E, kept_rows_eq, index_before_duplicates.
Qed.

Lemma series_drop_string_column (mask : list bool) (g : string -> string)
      (s : Series) :
  all_strings (series_drop mask (string_column g s)).
Proof.
  unfold all_strings, string_column. cbn [series_drop].
  exists (drop_marked mask (List.map (fun c => g (cell_str c)) (cells s))).
  now rewrite <- drop_marked_map, map_map.
Qed.

(** In the output of the pipeline the gender, state, education and
    vehicle_class columns hold strings and nothing else, whatever they held
    in the input; customer_lifetime_value is a float64 column,
    number_of_open_complaints a nullable integer column, and
    complaints_missing, which goes with it, a boolean column. *)
Theorem pipeline_output_dtypes (df : DataFrame) :
  frame_ok (clean_column_names df) = true ->
  (forall col s,
     In col ["gender"; "state"; "education"; "vehicle_class"] ->
     getitem col (fst (main_cleaning_pipeline df)) = Some s -> all_strings s)
  /\ (forall s,
        getitem "customer_lifetime_value" (fst (main_cleaning_pipeline df)) = Some s ->
        exists l, s = Float64S l)
  /\ (forall s,
        getitem "number_of_open_complaints" (fst (main_cleaning_pipeline df)) = Some s ->
        (exists l, s = NullableIntS l)
        /\ exists b, getitem "complaints_missing" (fst (main_cleaning_pipeline df))
                     = Some (BoolS b)).
Proof.
  intros H. destruct (frame_ok_parts _ H) as (Hd & _ & _ & _).
  split; [|split].
  - intros col s Hcol. rewrite (getitem_pipeline _ _ H).
    generalize (duplicated (before_duplicates df)). intros mask.
    assert (Hg : exists g, forall s0, treatment col s0 = string_column g s0).
    { cbn [In] in Hcol. destruct Hcol as [<-|[<-|[<-|[<-|[]]]]].
      - exists gender_value. apply treatment_gender.
      - exists state_value. apply treatment_state.
      - exists education_value. apply treatment_education.
      - exists vehicle_class_value. apply treatment_vehicle_class. }
    destruct Hg as (g & Hg).
    assert (Hcm : col <> "complaints_missing")
      by (cbn [In] in Hcol; intros ->;
          repeat (destruct Hcol as [Hcol|Hcol]; [discriminate|]); exact Hcol).
    rewrite (getitem_before_duplicates _ _ Hd Hcm).
    destruct (getitem col (clean_column_names df)) as [s0|]; [|discriminate].
    cbn [option_map]. rewrite Hg. intros E. injection E as <-.
    apply series_drop_string_column.
  - intros s. rewrite (getitem_pipeline _ _ H).
    generalize (duplicated (before_duplicates df)). intros mask.
    rewrite (getitem_before_duplicates _ _ Hd) by discriminate.
    destruct (getitem "customer_lifetime_value" (clean_column_names df))
      as [s0|]; [|discriminate].
    cbn [option_map]. rewrite treatment_lifetime_value. cbn [series_drop].
    intros E. injection E as <-. now eexists.
  - intros s. rewrite !(getitem_pipeline _ _ H).
    generalize (duplicated (before_duplicates df)). intros mask.
    destruct (getitem "number_of_open_complaints" (before_duplicates df))
      as [y|] eqn:Ey; [|discriminate].
    rewrite (before_duplicates_complaints_missing _ _ Hd Ey).
    rewrite (getitem_before_duplicates _ _ Hd) in Ey by discriminate.
    destruct (getitem "number_of_open_complaints" (clean_column_names df))
      as [s0|]; [|discriminate].
    cbn [option_map] in *. injection Ey as <-. rewrite treatment_complaints.
    cbn [series_drop isnull]. intros E. injection E as <-. split; now eexists.
Qed.

(** *** More about the missing-value stage *)


Lemma getitem_handle_missing_categorical (df : DataFrame) (col : string) :
  In col categorical_cols ->
  getitem col (handle_missing_values df)
  = option_map (fillna_str "Unknown") (getitem col df).
Proof.
  unfold handle_missing_values, categorical_cols, numerical_cols.
  cbn [fold_left In].
  intros [<-|[<-|[<-|[<-|[<-|[<-|[]]]]]]];
    rewrite getitem_derive_other by discriminate; now read_column.
Qed.


(** In an object column among the six categorical ones the missing-value
    stage writes "Unknown" in every missing cell and keeps the other cells,
    so that no cell is missing afterwards. *)
Theorem categorical_missing_unknown (df : DataFrame) (col : string)
        (l : list Scalar) :
  In col categorical_cols ->
  getitem col df = Some (ObjectS l) ->
  exists l',
    getitem col (handle_missing_values df) = Some (ObjectS l')
    /\ List.length l' = List.length l
    /\ (forall i x,
          nth_error l i = Some x ->
          (x = SNaN -> nth_error l' i = Some (SStr "Unknown"))
          /\ (x <> SNaN -> nth_error l' i = Some x))
    /\ forall x, In x l' -> x <> SNaN.
Proof.
  intros Hcol Hs.
  rewrite (getitem_handle_missing_categorical _ _ Hcol), Hs.
  cbn [option_map fillna_str]. eexists. split; [reflexivity|].
  split; [apply length_map|]. split.
  - intros i x Hx. rewrite nth_error_map, Hx. cbn [option_map].
    split; [now intros ->|]. now destruct x.
  - intros x Hx. apply in_map_iff in Hx as ([t|v|] & <- & _); discriminate.
Qed.

(** *** The complaints column on a second pass *)

Lemma complaints_parsed_nullable (l : list (option Z)) (o : option Z) :
  In o (complaints_parsed (NullableIntS l)) -> o = None.
Proof.
  unfold complaints_parsed. apply through_float64_all_missing.
  unfold complaints_read. cbn [cells]. rewrite map_map. intros o' H.
  apply in_map_iff in H as (x & <- & _).
  rewrite extract_no_slash; [reflexivity|].
  destruct x; [apply of_Z_no_slash | reflexivity].
Qed.

Lemma complaints_output_nullable (df : DataFrame) (s : Series) :
  frame_ok (clean_column_names df) = true ->
  getitem "number_of_open_complaints" (fst (main_cleaning_pipeline df)) = Some s ->
  exists l, s = NullableIntS l.
Proof.
  intros H. destruct (frame_ok_parts _ H) as (Hd & _ & _ & _).
  rewrite (getitem_pipeline _ _ H).
  generalize (duplicated (before_duplicates df)). intros mask.
  rewrite (getitem_before_duplicates _ _ Hd) by discriminate.
  destruct (getitem "number_of_open_complaints" (clean_column_names df))
    as [s0|]; [|discriminate].
  cbn [option_map]. rewrite treatment_complaints. cbn [series_drop].
  intros E. injection E as <-. now eexists.
Qed.

Lemma pipeline_nullable_complaints (df : DataFrame) :
  frame_ok (clean_column_names df) = true ->
  (forall s, getitem "number_of_open_complaints" (clean_column_names df) = Some s ->
             exists l, s = NullableIntS l) ->
  all_missing_at "number_of_open_complaints" (fst (main_cleaning_pipeline df)) = true.
Proof.
  intros H Hn. destruct (frame_ok_parts _ H) as (Hd & _ & _ & _).
  unfold all_missing_at. rewrite (getitem_pipeline _ _ H).
  generalize (duplicated (before_duplicates df)). intros mask.
  rewrite (getitem_before_duplicates _ _ Hd) by discriminate.
  destruct (getitem "number_of_open_complaints" (clean_column_names df))
    as [s0|]; [|reflexivity].
  destruct (Hn s0 eq_refl) as (l & ->).
  cbn [option_map]. rewrite treatment_complaints. cbn [series_drop cells].
  apply forallb_forall. intros c Hc. apply in_map_iff in Hc as (o & <- & Ho).
  apply drop_marked_In in Ho.
  now rewrite (complaints_parsed_nullable _ _ Ho).
Qed.

Lemma pipeline_output_clean (df : DataFrame) :
  frame_ok (clean_column_names df) = true ->
  clean_column_names (fst (main_cleaning_pipeline df))
  = fst (main_cleaning_pipeline df).
Proof.
  intros H. rewrite main_cleaning_pipeline_eq. cbn [fst].
  apply out_clean.
  - now apply before_duplicates_frame_ok.
  - apply before_duplicates_labels_fixed.
Qed.

(** Whatever table the pipeline is given, running it on its own output
    leaves no number in number_of_open_complaints: every cell of that
    column is missing after the second pass. *)
Theorem second_pass_wipes_complaints (df : DataFrame) :
  frame_ok (clean_column_names df) = true ->
  all_missing_at "number_of_open_complaints"
    (fst (main_cleaning_pipeline (fst (main_cleaning_pipeline df)))) = true.
Proof.
  intros H.
  assert (Hok : frame_ok (fst (main_cleaning_pipeline df)) = true).
  { rewrite main_cleaning_pipeline_eq. cbn [fst].
    now apply drop_duplicates_frame_ok, before_duplicates_frame_ok. }
  pose proof (pipeline_output_clean _ H) as Hc.
  pose proof (complaints_output_nullable df) as Hn.
  revert Hok Hc Hn. generalize (fst (main_cleaning_pipeline df)). intros out Hok Hc Hn.
  apply pipeline_nullable_complaints; rewrite Hc; [exact Hok|].
  intros s Hs. exact (Hn s H Hs).
Qed.

End Facts.

(** ** The theorems at concrete frames *)

Section Witnesses.

#[local] Existing Instance integral_float.

Lemma standardize_gender_cells_witness :
  getitem "gender" gender_frame
  = Some (ObjectS [SStr "female"; SStr " f "; SStr "Male"; SStr "Other"; SNaN])
  /\ exists out,
       getitem "gender" (standardize_gender gender_frame) = Some (ObjectS out)
       /\ nth_error out 1 = Some (SStr "F")
       /\ nth_error out 3 = Some (SStr "Other").
Proof.
  split; [reflexivity|].
  destruct (standardize_gender_cells gender_frame _ eq_refl) as (out & H1 & _ & H3).
  exists out. split; [exact H1|]. split.
  - exact (H3 1%nat (CStr " f ") eq_refl eq_refl).
  - exact (H3 3%nat (CStr "Other") eq_refl eq_refl).
Defined.

(** C2, as stated, fails: the cell "Other" comes out as "Other", where the
    claim wants the upper-cased "OTHER". *)
Lemma gender_claim_fails :
  exists i c out x,
    nth_error (cells (ObjectS [SStr "female"; SStr " f "; SStr "Male"; SStr "Other"; SNaN])) i
    = Some c
    /\ getitem "gender" (standardize_gender gender_frame) = Some (ObjectS out)
    /\ nth_error out i = Some (SStr x)
    /\ x = "Other"
    /\ gender_claimed c = "OTHER"
    /\ x <> gender_claimed c.
Proof.
  exists 3%nat, (CStr "Other"). eexists. exists "Other".
  repeat split; try reflexivity. discriminate.
Qed.

(** C3: what the vehicle-class standardizer does with "luxury car",
    "Sports Car", "SUV" and "Luxury Car": the first is left as it is. *)
Theorem vehicle_class_luxury_car :
  getitem "vehicle_class" (standardize_vehicle_class vehicle_frame)
  = Some (ObjectS [SStr "luxury car"; SStr "Luxury"; SStr "SUV"; SStr "Luxury"]).
Proof. reflexivity. Qed.

Lemma complaints_extracted_witness :
  getitem "number_of_open_complaints" complaints_frame
  = Some (ObjectS [SStr "Complaint/3/closed"; SStr "no match"])
  /\ runs_within 15 (ObjectS [SStr "Complaint/3/closed"; SStr "no match"]) = true
  /\ first_slash_digits "Complaint/3/closed" "3"
  /\ no_slash_digits "no match"
  /\ exists out,
       getitem "number_of_open_complaints" (clean_and_convert_numerical complaints_frame)
       = Some (NullableIntS out)
       /\ nth_error out 0 = Some (Some 3%Z)
       /\ nth_error out 1 = Some None.
Proof.
  assert (H3 : first_slash_digits "Complaint/3/closed" "3")
    by (apply extract_some; reflexivity).
  assert (Hn : no_slash_digits "no match") by (apply extract_none; reflexivity).
  split; [reflexivity|]. split; [reflexivity|]. split; [exact H3|]. split; [exact Hn|].
  destruct (complaints_extracted complaints_frame _ eq_refl eq_refl)
    as (out & H1 & _ & _ & H).
  exists out. split; [exact H1|]. split.
  - exact (proj1 (H 0%nat (CStr "Complaint/3/closed") eq_refl) "3" H3).
  - exact (proj2 (H 1%nat (CStr "no match") eq_refl) Hn).
Defined.

(** C5, as stated, fails: the column holds a cell without the pattern, so
    that it is read as float64, and the run 9007199254740993 comes out as
    9007199254740992, the float64 nearest to it. *)
Lemma long_run_rounded :
  exists out,
    getitem "number_of_open_complaints" (clean_and_convert_numerical long_run_frame)
    = Some (NullableIntS out)
    /\ first_slash_digits "Complaint/9007199254740993/closed" "9007199254740993"
    /\ Str.digits_value 0 "9007199254740993" = 9007199254740993%Z
    /\ nth_error out 0 = Some (Some 9007199254740992%Z)
    /\ nth_error out 0 <> Some (Some (Str.digits_value 0 "9007199254740993")).
Proof.
  eexists. split; [vm_compute; reflexivity|].
  split; [apply extract_some; reflexivity|].
  split; [reflexivity|]. split; [reflexivity|].
  vm_compute. discriminate.
Qed.



Lemma remove_duplicates_spec_witness :
  frame_ok duplicate_frame = true
  /\ kept_rows duplicate_frame = [0; 1]%nat
  /\ rows (fst (remove_duplicates duplicate_frame))
     = [[CStr "AB1"; CInt 1]; [CStr "CD2"; CInt 2]]
  /\ index (fst (remove_duplicates duplicate_frame)) = [0; 1]%Z
  /\ snd (remove_duplicates duplicate_frame)
     = ["Number of duplicate rows removed: 1"].
Proof.
  split; [reflexivity|]. split; [reflexivity|].
  destruct (remove_duplicates_spec duplicate_frame eq_refl)
    as (_ & _ & H3 & _ & H5 & H6).
  split; [exact H3|]. split; [exact H5 | exact H6].
Defined.

Lemma missing_categorical_becomes_nan_witness :
  frame_ok (clean_column_names raw_frame) = true
  /\ In "state" ["gender"; "state"; "education"; "vehicle_class"]
  /\ getitem "state" (clean_column_names raw_frame)
     = Some (ObjectS [SStr "CA"; SStr "cali"; SNaN; SStr "ZZ"])
  /\ nth_error (kept_rows (before_duplicates raw_frame)) 1 = Some 2%nat
  /\ exists out,
       getitem "state" (fst (main_cleaning_pipeline raw_frame)) = Some (ObjectS out)
       /\ nth_error out 1 = Some (SStr "NAN").
Proof.
  assert (Hin : In "state" ["gender"; "state"; "education"; "vehicle_class"])
    by (simpl; tauto).
  assert (Hk : nth_error (kept_rows (before_duplicates raw_frame)) 1 = Some 2%nat)
    by (vm_compute; reflexivity).
  split; [vm_compute; reflexivity|]. split; [exact Hin|].
  split; [reflexivity|]. split; [exact Hk|].
  destruct (missing_categorical_becomes_nan raw_frame "state" _
              ltac:(vm_compute; reflexivity) Hin eq_refl)
    as (mid & out & _ & H2 & _ & H4).
  exists out. split; [exact H2|].
  exact (H4 1%nat 2%nat Hk eq_refl).
Defined.



(** The first pass on the raw frame: the two spellings of one record are
    merged, the missing numbers take the medians, the missing categories
    read "nan". *)
Example pipeline_on_raw_frame :
  main_cleaning_pipeline raw_frame
  = (mkDF [0; 1; 2]%Z
       [("customer", ObjectS [SStr "AB1"; SStr "Unknown"; SStr "CD2"]);
        ("state", ObjectS [SStr "CALIFORNIA"; SStr "NAN"; SStr "ZZ"]);
        ("gender", ObjectS [SStr "F"; SStr "nan"; SStr "M"]);
        ("education", ObjectS [SStr "Bachelor"; SStr "nan"; SStr "Master"]);
        ("customer_lifetime_value", Float64S [Some 45; Some 45; Some 45]%Z);
        ("customer_income", Float64S [Some 10; Some 10; Some 40]%Z);
        ("vehicle_class", ObjectS [SStr "Luxury"; SStr "nan"; SStr "SUV"]);
        ("number_of_open_complaints", NullableIntS [None; None; None]);
        ("complaints_missing", BoolS [true; true; true])],
     ["Starting the data cleaning and formatting pipeline...";
      "Number of duplicate rows removed: 1";
      "Data cleaning pipeline completed successfully."]).
Proof. vm_compute. reflexivity. Qed.

(** Ties go to the even significand: 2^53 + 1 and 2^53 + 3 lie halfway
    between two floats, 2^54 + 2 as well. *)
Example float64_nearest_ties :
  List.map float64_nearest
    [9007199254740991; 9007199254740993; 9007199254740994; 9007199254740995;
     18014398509481986; 18014398509481987]%Z
  = [9007199254740991; 9007199254740992; 9007199254740994; 9007199254740996;
     18014398509481984; 18014398509481988]%Z.
Proof. reflexivity. Qed.

(** The single-cell examples of the specification that the code meets. *)
Example gender_values :
  List.map gender_value ["female"; " f "; "F"; "Male"] = ["F"; "F"; "F"; "M"].
Proof. reflexivity. Qed.

Example state_values :
  List.map state_value ["ca"; "cali"; "ZZ"] = ["CALIFORNIA"; "CALIFORNIA"; "ZZ"].
Proof. reflexivity. Qed.

Example education_values :
  List.map education_value ["bachelors"; "Bachelor of Science"; "Master"]
  = ["Bachelor"; "Bachelor"; "Master"].
Proof. reflexivity. Qed.

Example lifetime_values :
  lifetime_value_parsed (ObjectS [SStr "45%"; SStr "abc"]) = [Some 45%Z; None].
Proof. reflexivity. Qed.

Example median_even_count :
  median [Some 40; None; Some 10; Some 20; Some 30]%Z = Some 25%Z.
Proof. reflexivity. Qed.

(** *** The further properties at concrete frames *)

Lemma standardize_state_cells_witness :
  getitem "state" state_frame = Some (ObjectS [SStr "ca"; SStr "cali"; SStr "ZZ"])
  /\ In ("CALI", "CALIFORNIA") state_mapping
  /\ (forall full, ~ In ("ZZ", full) state_mapping)
  /\ exists out,
       getitem "state" (standardize_state state_frame) = Some (ObjectS out)
       /\ nth_error out 1 = Some (SStr "CALIFORNIA")
       /\ nth_error out 2 = Some (SStr "ZZ").
Proof.
  assert (Hin : In ("CALI", "CALIFORNIA") state_mapping)
    by (unfold state_mapping; cbn [In]; tauto).
  assert (Hno : forall full, ~ In ("ZZ", full) state_mapping).
  { intros full H. apply (In_assoc _ _ _ state_codes_distinct) in H.
    vm_compute in H. discriminate. }
  split; [reflexivity|]. split; [exact Hin|]. split; [exact Hno|].
  destruct (standardize_state_cells state_frame _ eq_refl) as (out & H1 & _ & H).
  exists out. split; [exact H1|]. split.
  - exact (proj1 (H 1%nat (CStr "cali") eq_refl) _ Hin).
  - exact (proj2 (H 2%nat (CStr "ZZ") eq_refl) Hno).
Defined.

Lemma standardize_state_resolved_witness :
  getitem "state" state_frame = Some (ObjectS [SStr "ca"; SStr "cali"; SStr "ZZ"])
  /\ exists out,
       getitem "state" (standardize_state state_frame) = Some (ObjectS out)
       /\ forall x, In x out ->
            exists t, x = SStr t /\ upper_case t = true
                      /\ forall full, ~ In (t, full) state_mapping.
Proof.
  split; [reflexivity|].
  exact (standardize_state_resolved state_frame _ eq_refl).
Defined.

Lemma standardize_education_cells_witness :
  getitem "education" education_frame
  = Some (ObjectS [SStr "bachelors"; SStr "Bachelor of Science"; SStr "Master"])
  /\ exists out,
       getitem "education" (standardize_education education_frame)
       = Some (ObjectS out)
       /\ nth_error out 0 = Some (SStr "Bachelor")
       /\ nth_error out 2 = Some (SStr "Master").
Proof.
  split; [reflexivity|].
  destruct (standardize_education_cells education_frame _ eq_refl)
    as (out & H1 & _ & H).
  exists out. split; [exact H1|]. split.
  - exact (proj1 (H 0%nat (CStr "bachelors") eq_refl) "b"%char "achelors"
                 eq_refl (or_intror eq_refl)).
  - apply (proj2 (H 2%nat (CStr "Master") eq_refl)).
    intros rest. split; discriminate.
Defined.

Lemma lifetime_value_cleaned_witness :
  getitem "customer_lifetime_value" lifetime_frame
  = Some (ObjectS [SStr "45%%"; SStr "abc"])
  /\ "45%%" = "45" ++ pct_run 2
  /\ ends_with "%" "45" = false
  /\ exists out,
       getitem "customer_lifetime_value" (clean_and_convert_numerical lifetime_frame)
       = Some (Float64S out)
       /\ nth_error out 0 = Some (Some 45%Z).
Proof.
  split; [reflexivity|]. split; [reflexivity|]. split; [reflexivity|].
  destruct (lifetime_value_cleaned lifetime_frame _ eq_refl) as (out & H1 & _ & H).
  exists out. split; [exact H1|].
  exact (proj2 (H 0%nat (CStr "45%%") eq_refl) "45" 2%nat eq_refl eq_refl).
Defined.

Lemma complaints_integers_wiped_witness :
  getitem "number_of_open_complaints" complaints_int_frame
  = Some (Int64S [0; 1; 2]%Z)
  /\ exists out,
       getitem "number_of_open_complaints"
         (clean_and_convert_numerical complaints_int_frame)
       = Some (NullableIntS out)
       /\ List.length out = 3%nat
       /\ forall o, In o out -> o = None.
Proof.
  split; [reflexivity|].
  exact (complaints_integers_wiped complaints_int_frame _ eq_refl
           (or_introl (ex_intro _ [0; 1; 2]%Z eq_refl))).
Defined.

Lemma complaints_not_negative_witness :
  getitem "number_of_open_complaints" complaints_frame
  = Some (ObjectS [SStr "Complaint/3/closed"; SStr "no match"])
  /\ exists out,
       getitem "number_of_open_complaints"
         (clean_and_convert_numerical complaints_frame)
       = Some (NullableIntS out)
       /\ forall z, In (Some z) out -> (0 <= z)%Z.
Proof.
  split; [reflexivity|].
  exact (complaints_not_negative complaints_frame _ eq_refl).
Defined.

Lemma complaints_decimal_read_back_witness :
  getitem "number_of_open_complaints" complaints_frame
  = Some (ObjectS [SStr "Complaint/3/closed"; SStr "no match"])
  /\ runs_within 15 (ObjectS [SStr "Complaint/3/closed"; SStr "no match"]) = true
  /\ nth_error (cells (ObjectS [SStr "Complaint/3/closed"; SStr "no match"])) 0
     = Some (CStr ("Complaint" ++ String "/" (Str.of_nat 3 ++ String "/" "closed")))
  /\ no_slash "Complaint" = true
  /\ exists out,
       getitem "number_of_open_complaints"
         (clean_and_convert_numerical complaints_frame)
       = Some (NullableIntS out)
       /\ nth_error out 0 = Some (Some 3%Z).
Proof.
  split; [reflexivity|]. split; [reflexivity|]. split; [reflexivity|].
  split; [reflexivity|].
  exact (complaints_decimal_read_back complaints_frame _ 0%nat 3%nat
           "Complaint" "closed" eq_refl eq_refl eq_refl eq_refl).
Defined.

Lemma stage_without_its_columns_witness :
  In (standardize_gender, ["gender"]) stage_labels
  /\ (forall n, In n ["gender"] -> has_column n vehicle_frame = false)
  /\ standardize_gender vehicle_frame = vehicle_frame.
Proof.
  assert (Hin : In (standardize_gender, ["gender"]) stage_labels) by (now left).
  assert (Hno : forall n, In n ["gender"] -> has_column n vehicle_frame = false)
    by (intros n [<-|[]]; reflexivity).
  split; [exact Hin|]. split; [exact Hno|].
  exact (stage_without_its_columns vehicle_frame _ _ Hin Hno).
Defined.

Lemma stage_keeps_other_columns_witness :
  In (standardize_gender, ["gender"]) stage_labels
  /\ ~ In "sales_channel" ["gender"]
  /\ "sales_channel" <> "complaints_missing"
  /\ getitem "sales_channel" (clean_column_names channel_frame)
     = Some (ObjectS [SStr "Agent"; SStr "Web"; SStr "Agent"])
  /\ getitem "gender" (standardize_gender (clean_column_names channel_frame))
     = Some (ObjectS [SStr "F"; SStr "M"; SStr "F"])
  /\ getitem "sales_channel" (standardize_gender (clean_column_names channel_frame))
     = Some (ObjectS [SStr "Agent"; SStr "Web"; SStr "Agent"])
  /\ index (standardize_gender (clean_column_names channel_frame)) = [0; 1; 2]%Z.
Proof.
  assert (Hin : In (standardize_gender, ["gender"]) stage_labels) by (now left).
  assert (Hno : ~ In "sales_channel" ["gender"]) by (intros [H|[]]; discriminate).
  assert (Hcm : "sales_channel" <> "complaints_missing") by discriminate.
  split; [exact Hin|]. split; [exact Hno|]. split; [exact Hcm|].
  split; [reflexivity|]. split; [reflexivity|].
  destruct (stage_keeps_other_columns (clean_column_names channel_frame)
              _ _ "sales_channel" Hin Hno Hcm) as [Hcol Hidx].
  split; [rewrite Hcol | rewrite Hidx]; reflexivity.
Defined.

Lemma standardizer_idempotent_witness :
  In standardize_state standardizers
  /\ standardize_state (standardize_state state_frame) = standardize_state state_frame.
Proof.
  assert (Hin : In standardize_state standardizers) by (right; now left).
  split; [exact Hin|].
  exact (standardizer_idempotent state_frame _ Hin).
Defined.

Lemma standardizers_commute_witness :
  In standardize_gender standardizers
  /\ In standardize_state standardizers
  /\ standardize_gender (standardize_state (clean_column_names raw_frame))
     = standardize_state (standardize_gender (clean_column_names raw_frame)).
Proof.
  assert (Hf : In standardize_gender standardizers) by (now left).
  assert (Hg : In standardize_state standardizers) by (right; now left).
  split; [exact Hf|]. split; [exact Hg|].
  exact (standardizers_commute (clean_column_names raw_frame) _ _ Hf Hg).
Defined.

Lemma gender_by_first_letter_witness :
  getitem "gender" gender_frame
  = Some (ObjectS [SStr "female"; SStr " f "; SStr "Male"; SStr "Other"; SNaN])
  /\ exists out,
       getitem "gender" (standardize_gender gender_frame) = Some (ObjectS out)
       /\ nth_error out 1 = Some (SStr "F")
       /\ nth_error out 2 = Some (SStr "M")
       /\ nth_error out 3 = Some (SStr "Other").
Proof.
  split; [reflexivity|].
  destruct (gender_by_first_letter gender_frame _ eq_refl) as (out & H1 & H).
  exists out. split; [exact H1|]. split; [|split].
  - exact (H 1%nat (CStr " f ") eq_refl).
  - exact (H 2%nat (CStr "Male") eq_refl).
  - exact (H 3%nat (CStr "Other") eq_refl).
Defined.

Lemma standardize_vehicle_class_cells_witness :
  getitem "vehicle_class" vehicle_frame
  = Some (ObjectS [SStr "luxury car"; SStr "Sports Car"; SStr "SUV"; SStr "Luxury Car"])
  /\ whole_word_in "Sports" "Sports Car"
  /\ ~ whole_word_in "Sports" "luxury car"
  /\ exists out,
       getitem "vehicle_class" (standardize_vehicle_class vehicle_frame)
       = Some (ObjectS out)
       /\ nth_error out 0 = Some (SStr "luxury car")
       /\ nth_error out 1 = Some (SStr "Luxury").
Proof.
  assert (Hw : whole_word_in "Sports" "Sports Car")
    by (exists "", " Car"; repeat split; reflexivity).
  assert (Hn : ~ whole_word_in "Sports" "luxury car").
  { intros H. apply (search_word_spec "Sports" false) in H; [|discriminate].
    vm_compute in H. discriminate. }
  split; [reflexivity|]. split; [exact Hw|]. split; [exact Hn|].
  destruct (standardize_vehicle_class_cells vehicle_frame _ eq_refl)
    as (out & H1 & _ & H).
  exists out. split; [exact H1|]. split.
  - apply (proj2 (H 0%nat (CStr "luxury car") eq_refl)); [|exact Hn].
    intros rest. split; discriminate.
  - exact (proj1 (H 1%nat (CStr "Sports Car") eq_refl) (or_intror Hw)).
Defined.

Lemma remove_duplicates_distinct_rows_witness :
  frame_ok duplicate_frame = true
  /\ NoDup (rows (fst (remove_duplicates duplicate_frame)))
  /\ forall r, In r (rows (fst (remove_duplicates duplicate_frame)))
               <-> In r (rows duplicate_frame).
Proof.
  split; [reflexivity|].
  exact (remove_duplicates_distinct_rows duplicate_frame eq_refl).
Defined.

Lemma remove_duplicates_nothing_to_remove_witness :
  frame_ok complaints_frame = true
  /\ NoDup (rows complaints_frame)
  /\ remove_duplicates complaints_frame
     = (reset_index complaints_frame, ["Number of duplicate rows removed: 0"]).
Proof.
  assert (Hn : NoDup (rows complaints_frame)).
  { vm_compute. repeat constructor; cbn [In]; intuition discriminate. }
  split; [reflexivity|]. split; [exact Hn|].
  exact (remove_duplicates_nothing_to_remove complaints_frame eq_refl Hn).
Defined.

Lemma remove_duplicates_idempotent_witness :
  frame_ok duplicate_frame = true
  /\ remove_duplicates (fst (remove_duplicates duplicate_frame))
     = (fst (remove_duplicates duplicate_frame),
        ["Number of duplicate rows removed: 0"]).
Proof.
  split; [reflexivity|].
  exact (remove_duplicates_idempotent duplicate_frame eq_refl).
Defined.

Lemma pipeline_output_well_formed_witness :
  frame_ok (clean_column_names raw_frame) = true
  /\ frame_ok (fst (main_cleaning_pipeline raw_frame)) = true
  /\ NoDup (rows (fst (main_cleaning_pipeline raw_frame))).
Proof.
  assert (H : frame_ok (clean_column_names raw_frame) = true)
    by (vm_compute; reflexivity).
  split; [exact H|].
  exact (pipeline_output_well_formed raw_frame H).
Defined.

Lemma other_columns_pass_through_witness :
  frame_ok (clean_column_names channel_frame) = true
  /\ ~ In "sales_channel" treated_labels
  /\ "sales_channel" <> "complaints_missing"
  /\ getitem "sales_channel" (clean_column_names channel_frame)
     = Some (ObjectS [SStr "Agent"; SStr "Web"; SStr "Agent"])
  /\ kept_rows (before_duplicates channel_frame) = [0; 1]%nat
  /\ exists s',
       getitem "sales_channel" (fst (main_cleaning_pipeline channel_frame)) = Some s'
       /\ cells s' = [CStr "Agent"; CStr "Web"].
Proof.
  assert (H : frame_ok (clean_column_names channel_frame) = true)
    by (vm_compute; reflexivity).
  assert (Hn : ~ In "sales_channel" treated_labels).
  { unfold treated_labels. cbn [In]. intros Hn.
    repeat (destruct Hn as [Hn|Hn]; [discriminate|]). exact Hn. }
  assert (Hcm : "sales_channel" <> "complaints_missing") by discriminate.
  assert (Hk : kept_rows (before_duplicates channel_frame) = [0; 1]%nat)
    by (vm_compute; reflexivity).
  split; [exact H|]. split; [exact Hn|]. split; [exact Hcm|].
  split; [reflexivity|]. split; [exact Hk|].
  destruct (other_columns_pass_through channel_frame "sales_channel" _ H Hn Hcm eq_refl)
    as (s' & H1 & H2).
  exists s'. split; [exact H1|]. rewrite H2, Hk. reflexivity.
Defined.

Lemma pipeline_output_dtypes_witness :
  frame_ok (clean_column_names raw_frame) = true
  /\ (forall col s,
        In col ["gender"; "state"; "education"; "vehicle_class"] ->
        getitem col (fst (main_cleaning_pipeline raw_frame)) = Some s -> all_strings s)
  /\ (forall s,
        getitem "customer_lifetime_value" (fst (main_cleaning_pipeline raw_frame))
        = Some s ->
        exists l, s = Float64S l)
  /\ (forall s,
        getitem "number_of_open_complaints" (fst (main_cleaning_pipeline raw_frame))
        = Some s ->
        (exists l, s = NullableIntS l)
        /\ exists b, getitem "complaints_missing"
                       (fst (main_cleaning_pipeline raw_frame))
                     = Some (BoolS b)).
Proof.
  assert (H : frame_ok (clean_column_names raw_frame) = true)
    by (vm_compute; reflexivity).
  split; [exact H|].
  exact (pipeline_output_dtypes raw_frame H).
Defined.


Lemma categorical_missing_unknown_witness :
  In "customer" categorical_cols
  /\ getitem "customer" (clean_column_names raw_frame)
     = Some (ObjectS [SStr "AB1"; SStr "AB1"; SNaN; SStr "CD2"])
  /\ exists l',
       getitem "customer" (handle_missing_values (clean_column_names raw_frame))
       = Some (ObjectS l')
       /\ nth_error l' 2 = Some (SStr "Unknown")
       /\ nth_error l' 3 = Some (SStr "CD2").
Proof.
  assert (Hin : In "customer" categorical_cols) by (now left).
  split; [exact Hin|]. split; [reflexivity|].
  destruct (categorical_missing_unknown (clean_column_names raw_frame) _ _ Hin eq_refl)
    as (l' & H1 & _ & H & _).
  exists l'. split; [exact H1|]. split.
  - exact (proj1 (H 2%nat SNaN eq_refl) eq_refl).
  - apply (proj2 (H 3%nat (SStr "CD2") eq_refl)). discriminate.
Defined.

Lemma second_pass_wipes_complaints_witness :
  frame_ok (clean_column_names complaints_frame) = true
  /\ getitem "number_of_open_complaints" (fst (main_cleaning_pipeline complaints_frame))
     = Some (NullableIntS [Some 3%Z; None])
  /\ all_missing_at "number_of_open_complaints"
       (fst (main_cleaning_pipeline (fst (main_cleaning_pipeline complaints_frame))))
     = true.
Proof.
  assert (H : frame_ok (clean_column_names complaints_frame) = true)
    by (vm_compute; reflexivity).
  split; [exact H|]. split; [vm_compute; reflexivity|].
  exact (second_pass_wipes_complaints complaints_frame H).
Defined.

End Witnesses.

(** ** A parser that does not give the floats back

    With [coarse_float] the first pass fills the missing cell with the
    median 15, which the second pass reads as 14: a second pass leaves the
    table alone only where the cells of customer_lifetime_value are read
    back from their string forms. *)

Section CoarseParser.

#[local] Existing Instance coarse_float.

Example second_pass_rereads_lifetime_value :
  fst (main_cleaning_pipeline coarse_frame)
  = mkDF [0; 1; 2]%Z
      [("customer_lifetime_value", Float64S [Some 10; Some 20; Some 15]%Z)]
  /\ all_missing_at "number_of_open_complaints"
       (fst (main_cleaning_pipeline coarse_frame)) = true
  /\ all_read_back_at "customer_lifetime_value"
       (fst (main_cleaning_pipeline coarse_frame)) = false
  /\ fst (main_cleaning_pipeline (fst (main_cleaning_pipeline coarse_frame)))
     = mkDF [0; 1; 2]%Z
         [("customer_lifetime_value", Float64S [Some 10; Some 20; Some 14]%Z)].
Proof. repeat split; vm_compute; reflexivity. Qed.

End CoarseParser.
